(** * Cost-basis position ledger of [data_fetch/enhance_user_metrics.py]

    A shallow embedding of the three functions that turn a wallet's trade
    history into dollar metrics:

    - [fetch_user_trades_with_prices]: the weighted-average-cost ledger,
    - [fetch_user_positions_dollars]: the unrealized-PnL reconciliation,
    - [enhance_user] and the batch loop of [main].

    Conventions of the embedding.

    - Python floats are idealised as exact rationals ([Q]); Python ints are
      [Z].  Non-finite floats have no counterpart here, and the arithmetic
      identities below are those of exact arithmetic.  Where the code
      computes a value by a given expression the statements use [=] on
      that expression; [==] is equality of rationals.
    - Strings are ASCII.
    - A decoded JSON document is a value of [json]; [dict.get], truthiness,
      [or], [float(...)], [str.upper] and tuple hashing are written out with
      the exceptions they raise.
    - The HTTP round trip is an input: a [response] is either the exception
      the request raised or the decoded body.
    - Exceptions are values of the [result] monad (with stdpp's [x ← m; k]
      notation for sequencing); a [try/except Exception] is [catch]. *)

From Stdlib Require Import ZArith QArith Qround Qcanon String Ascii List Lia Lqa Bool.
From stdpp Require Import gmap strings.

Local Open Scope Z_scope.
Local Open Scope Q_scope.
Local Open Scope string_scope.

(** ** Exceptions and the result monad *)

Inductive exn : Type :=
| ValueError
| TypeError
| AttributeError
| KeyError
| ZeroDivisionError
| HTTPError.

Inductive result (A : Type) : Type :=
| Ok (a : A)
| Raise (e : exn).

Arguments Ok {A} a.
Arguments Raise {A} e.

#[global] Instance result_ret : MRet result := fun A a => Ok a.

#[global] Instance result_bind : MBind result := fun A B f m =>
  match m with
  | Ok a => f a
  | Raise e => Raise e
  end.

(** [try: body  except Exception: handler] *)
Definition catch {A : Type} (body : result A) (handler : exn -> A) : A :=
  match body with
  | Ok a => a
  | Raise e => handler e
  end.

Definition is_ok {A : Type} (m : result A) : bool :=
  match m with Ok _ => true | Raise _ => false end.

(** Left fold of a fallible loop body: the first exception leaves the loop. *)
Fixpoint for_each {S X : Type} (body : S -> X -> result S) (st : S) (xs : list X)
  : result S :=
  match xs with
  | nil => Ok st
  | x :: rest => st' ← body st x; for_each body st' rest
  end.

(** ** Decoded JSON values *)

#[warnings="-register-all"]
Inductive json : Type :=
| JNull
| JBool (b : bool)
| JNum (q : Q)
| JStr (s : string)
| JArr (xs : list json)
| JObj (fields : list (string * json)).

Fixpoint assoc_get (fields : list (string * json)) (k : string) : option json :=
  match fields with
  | nil => None
  | (k', v) :: rest => if String.eqb k' k then Some v else assoc_get rest k
  end.

(** [item.get(k, d)]; on anything but a dict the attribute is missing. *)
Definition dict_get (item : json) (k : string) (d : json) : result json :=
  match item with
  | JObj fields => Ok (match assoc_get fields k with Some v => v | None => d end)
  | _ => Raise AttributeError
  end.

(** Truth value of a Python object. *)
Definition truthy (v : json) : bool :=
  match v with
  | JNull => false
  | JBool b => b
  | JNum q => negb (Qeq_bool q 0)
  | JStr s => negb (String.eqb s "")
  | JArr xs => match xs with nil => false | _ => true end
  | JObj fields => match fields with nil => false | _ => true end
  end.

(** [a or b], with [b] evaluated only when [a] is falsy. *)
Definition or_else (a : json) (b : result json) : result json :=
  if truthy a then Ok a else b.

(** ** [float(...)]

    The grammar [float] accepts for a string: surrounding whitespace, a sign,
    digits (single underscores may separate them), a fraction, a decimal
    exponent.  The spellings [inf], [infinity] and [nan] name non-finite
    floats and have no rational value, so this idealisation leaves them out. *)

Definition is_space (c : ascii) : bool :=
  let n := nat_of_ascii c in
  ((9 <=? n) && (n <=? 13))%nat || (n =? 32)%nat.

Definition digit_val (c : ascii) : option Z :=
  let n := nat_of_ascii c in
  if ((48 <=? n) && (n <=? 57))%nat then Some (Z.of_nat (n - 48)) else None.

(** The rest of a digit run, after its first digit: value so far, number of
    digits so far, remaining input. *)
Fixpoint digits_tail (acc : Z) (n : nat) (cs : list ascii) : Z * nat * list ascii :=
  match cs with
  | nil => (acc, n, nil)
  | c :: rest =>
      match digit_val c with
      | Some d => digits_tail (10 * acc + d)%Z (S n) rest
      | None =>
          if Ascii.eqb c "_" then
            match rest with
            | c' :: rest' =>
                match digit_val c' with
                | Some d => digits_tail (10 * acc + d)%Z (S n) rest'
                | None => (acc, n, cs)
                end
            | nil => (acc, n, cs)
            end
          else (acc, n, cs)
      end
  end.

Definition digitpart (cs : list ascii) : option (Z * nat * list ascii) :=
  match cs with
  | c :: rest =>
      match digit_val c with
      | Some d => Some (digits_tail d 1 rest)
      | None => None
      end
  | nil => None
  end.

Definition pow10 (e : Z) : Q := Qpower 10 e.

Definition signed (cs : list ascii) : bool * list ascii :=
  match cs with
  | c :: rest =>
      if Ascii.eqb c "-" then (true, rest)
      else if Ascii.eqb c "+" then (false, rest)
      else (false, cs)
  | nil => (false, cs)
  end.

(** Optional exponent, then end of input. *)
Definition exponent (m : Q) (cs : list ascii) : option Q :=
  match cs with
  | nil => Some m
  | c :: rest =>
      if Ascii.eqb c "e" || Ascii.eqb c "E" then
        let '(neg, rest') := signed rest in
        match digitpart rest' with
        | Some (e, _, nil) => Some (m * pow10 (if neg then - e else e)%Z)
        | _ => None
        end
      else None
  end.

Definition unsigned_float (cs : list ascii) : option Q :=
  match cs with
  | c :: rest =>
      if Ascii.eqb c "." then
        match digitpart rest with
        | Some (f, n, rest') => exponent (inject_Z f * pow10 (- Z.of_nat n)) rest'
        | None => None
        end
      else
        match digitpart cs with
        | Some (i, _, c1 :: rest1) =>
            if Ascii.eqb c1 "." then
              match digitpart rest1 with
              | Some (f, n, rest2) =>
                  exponent (inject_Z i + inject_Z f * pow10 (- Z.of_nat n)) rest2
              | None => exponent (inject_Z i) rest1
              end
            else exponent (inject_Z i) (c1 :: rest1)
        | Some (i, _, nil) => Some (inject_Z i)
        | None => None
        end
  | nil => None
  end.

Fixpoint lstrip (cs : list ascii) : list ascii :=
  match cs with
  | c :: rest => if is_space c then lstrip rest else cs
  | nil => nil
  end.

Definition strip (cs : list ascii) : list ascii :=
  rev (lstrip (rev (lstrip cs))).

Definition float_of_str (s : string) : option Q :=
  let '(neg, cs) := signed (strip (list_ascii_of_string s)) in
  match unsigned_float cs with
  | Some q => Some (Qred (if neg then - q else q))
  | None => None
  end.

(** [float(v)] for a decoded JSON value. *)
Definition py_float (v : json) : result Q :=
  match v with
  | JNum q => Ok q
  | JBool b => Ok (if b then 1 else 0)
  | JStr s =>
      match float_of_str s with
      | Some q => Ok q
      | None => Raise ValueError
      end
  | JNull | JArr _ | JObj _ => Raise TypeError
  end.

(** ** [str.upper] (ASCII) *)

Definition upper_ascii (c : ascii) : ascii :=
  let n := nat_of_ascii c in
  if ((97 <=? n) && (n <=? 122))%nat then ascii_of_nat (n - 32) else c.

Fixpoint upper_string (s : string) : string :=
  match s with
  | EmptyString => EmptyString
  | String c rest => String (upper_ascii c) (upper_string rest)
  end.

(** [v.upper()]: only strings have the method. *)
Definition py_upper (v : json) : result string :=
  match v with
  | JStr s => Ok (upper_string s)
  | _ => Raise AttributeError
  end.

(** ** Arithmetic and comparison on floats *)

(** [a > b] is [Qltb b a]. *)
Definition Qltb (a b : Q) : bool := negb (Qle_bool b a).

(** [a / b]; a zero divisor raises. *)
Definition py_div (a b : Q) : result Q :=
  if Qeq_bool b 0 then Raise ZeroDivisionError else Ok (a / b).

(** ** Dictionary keys

    [positions] is keyed by the tuple [(market_id, outcome)].  Hashing the
    tuple hashes both components; lists and dicts are unhashable.  Equal
    numbers are one key whatever their spelling ([True == 1 == 1.0]), so a
    number is kept in canonical form. *)

Inductive hkey : Type :=
| HNone
| HNum (q : Qc)
| HStr (s : string).

#[global] Instance hkey_eq_dec : EqDecision hkey.
Proof. solve_decision. Defined.

#[global] Instance hkey_countable : Countable hkey.
Proof.
  refine (inj_countable'
    (fun k => match k with
              | HNone => inl ()
              | HNum q => inr (inl q)
              | HStr s => inr (inr s)
              end)
    (fun x => match x with
              | inl _ => HNone
              | inr (inl q) => HNum q
              | inr (inr s) => HStr s
              end) _).
  intros []; reflexivity.
Defined.

Definition py_hash (v : json) : result hkey :=
  match v with
  | JNull => Ok HNone
  | JBool b => Ok (HNum (Q2Qc (if b then 1 else 0)))
  | JNum q => Ok (HNum (Q2Qc q))
  | JStr s => Ok (HStr s)
  | JArr _ | JObj _ => Raise TypeError
  end.

Definition key : Type := hkey * hkey.

Definition hash_key (position_key : json * json) : result key :=
  m ← py_hash (fst position_key);
  o ← py_hash (snd position_key);
  mret (m, o).

(** ** The position ledger *)

(** [{"shares": X, "cost_basis": Y}] *)
Record position : Type := Position {
  shares : Q;
  cost_basis : Q
}.

(** [positions[k]] *)
Definition subscript (ps : gmap key position) (k : key) : result position :=
  match ps !! k with
  | Some p => Ok p
  | None => Raise KeyError
  end.

(** The local variables of [fetch_user_trades_with_prices] that the loop
    over the trades updates. *)
Record ledger : Type := Ledger {
  total_dollar_volume : Q;
  trade_count : Z;
  positions : gmap key position;
  realized_pnl : Q;
  winning_trades : Z;
  losing_trades : Z
}.

Definition initial_ledger : ledger :=
  {| total_dollar_volume := 0;
     trade_count := 0;
     positions := ∅;
     realized_pnl := 0;
     winning_trades := 0;
     losing_trades := 0 |}.

(** The trade details read off one item. *)
Record trade : Type := Trade {
  size : Q;
  price : Q;
  side : string;
  market_id : json;
  outcome : json
}.

(** [float(item.get(k, 0) or 0)] *)
Definition float_or_zero (item : json) (k : string) : result Q :=
  v ← dict_get item k (JNum 0);
  v ← or_else v (Ok (JNum 0));
  py_float v.

(** [(item.get("market") or item.get("marketId", ""), item.get("outcome", ""))] *)
Definition item_key (item : json) : result (json * json) :=
  mk ← dict_get item "market" JNull;
  market_id ← or_else mk (dict_get item "marketId" (JStr ""));
  outcome ← dict_get item "outcome" (JStr "");
  mret (market_id, outcome).

Definition normalize (item : json) : result trade :=
  size ← float_or_zero item "size";
  price ← float_or_zero item "price";
  sd ← dict_get item "side" (JStr "");
  side ← py_upper sd;
  position_key ← item_key item;
  mret {| size := size; price := price; side := side;
          market_id := fst position_key; outcome := snd position_key |}.

Definition set_positions (st : ledger) (ps : gmap key position) : ledger :=
  {| total_dollar_volume := total_dollar_volume st;
     trade_count := trade_count st;
     positions := ps;
     realized_pnl := realized_pnl st;
     winning_trades := winning_trades st;
     losing_trades := losing_trades st |}.

(** The [BUY] branch. *)
Definition buy (st : ledger) (t : trade) (dollar_amount : Q) : result ledger :=
  position_key ← hash_key (market_id t, outcome t);
  let ps0 :=
    match positions st !! position_key with
    | None => <[position_key := {| shares := 0; cost_basis := 0 |}]> (positions st)
    | Some _ => positions st
    end in
  p ← subscript ps0 position_key;
  let ps1 :=
    <[position_key := {| shares := shares p + size t; cost_basis := cost_basis p |}]> ps0 in
  p ← subscript ps1 position_key;
  let ps2 :=
    <[position_key := {| shares := shares p; cost_basis := cost_basis p + dollar_amount |}]> ps1 in
  mret (set_positions st ps2).

(** The [SELL] branch. *)
Definition sell (st : ledger) (t : trade) (dollar_amount : Q) : result ledger :=
  position_key ← hash_key (market_id t, outcome t);
  match positions st !! position_key with
  | Some p0 =>
      if Qltb 0 (shares p0) then
        avg_cost ← py_div (cost_basis p0) (shares p0);
        let sell_proceeds := dollar_amount in
        let cost_of_shares_sold := avg_cost * size t in
        let trade_pnl := sell_proceeds - cost_of_shares_sold in
        let realized_pnl := realized_pnl st + trade_pnl in
        let winning_trades :=
          if Qltb 0 trade_pnl then (winning_trades st + 1)%Z else winning_trades st in
        let losing_trades :=
          if Qltb 0 trade_pnl then losing_trades st
          else if Qltb trade_pnl 0 then (losing_trades st + 1)%Z
          else losing_trades st in
        p ← subscript (positions st) position_key;
        let ps1 :=
          <[position_key := {| shares := shares p - size t; cost_basis := cost_basis p |}]>
            (positions st) in
        p ← subscript ps1 position_key;
        let ps2 :=
          if Qltb 0 (shares p) then
            <[position_key := {| shares := shares p; cost_basis := avg_cost * shares p |}]> ps1
          else delete position_key ps1 in
        mret {| total_dollar_volume := total_dollar_volume st;
                trade_count := trade_count st;
                positions := ps2;
                realized_pnl := realized_pnl;
                winning_trades := winning_trades;
                losing_trades := losing_trades |}
      else mret st
  | None => mret st
  end.

(** The body of the loop once the trade details are read. *)
Definition apply_trade (st : ledger) (t : trade) : result ledger :=
  let dollar_amount := size t * price t in
  let st1 :=
    {| total_dollar_volume := total_dollar_volume st + dollar_amount;
       trade_count := trade_count st + 1;
       positions := positions st;
       realized_pnl := realized_pnl st;
       winning_trades := winning_trades st;
       losing_trades := losing_trades st |} in
  if String.eqb (side t) "BUY" then buy st1 t dollar_amount
  else if String.eqb (side t) "SELL" then sell st1 t dollar_amount
  else mret st1.

(** One iteration of [for item in items]. *)
Definition loop_body (st : ledger) (item : json) : result ledger :=
  t ← normalize item;
  apply_trade st t.

Definition run_trades (st : ledger) (ts : list trade) : result ledger :=
  for_each apply_trade st ts.

(** ** [round(x, ndigits)]: to the nearest multiple of [10^-ndigits], ties
    to the even one. *)

Definition round_half_even (x : Q) : Z :=
  let f := Qfloor x in
  match Qcompare (x - inject_Z f) (1 # 2) with
  | Lt => f
  | Gt => (f + 1)%Z
  | Eq => if Z.even f then f else (f + 1)%Z
  end.

Definition py_round (x : Q) (ndigits : Z) : Q :=
  Qred (inject_Z (round_half_even (x * pow10 ndigits)) / pow10 ndigits).

(** ** [fetch_user_trades_with_prices] *)

(** Outcome of the HTTP request: [client.get], [raise_for_status] or
    [response.json()] raised, or the body was decoded. *)
Inductive response : Type :=
| FetchFailed (e : exn)
| Body (data : json).

Definition await_json (resp : response) : result json :=
  match resp with
  | FetchFailed e => Raise e
  | Body data => Ok data
  end.

(** [data if isinstance(data, list) else data.get("data", [])] *)
Definition items_of (data : json) : result json :=
  match data with
  | JArr _ => Ok data
  | _ => dict_get data "data" (JArr nil)
  end.

Fixpoint chars (s : string) : list json :=
  match s with
  | EmptyString => nil
  | String c rest => JStr (String c EmptyString) :: chars rest
  end.

(** What [for item in items] iterates over. *)
Definition py_iter (items : json) : result (list json) :=
  match items with
  | JArr xs => Ok xs
  | JObj fields => Ok (map (fun kv => JStr (fst kv)) fields)
  | JStr s => Ok (chars s)
  | JNull | JBool _ | JNum _ => Raise TypeError
  end.

(** The metrics dict. *)
Record metrics : Type := Metrics {
  m_total_dollar_volume : Q;
  m_avg_trade_dollars : Q;
  m_realized_pnl : Q;
  m_win_rate : Q;
  m_winning_trades : Z;
  m_losing_trades : Z;
  m_total_trades : Z
}.

Definition zero_metrics : metrics :=
  {| m_total_dollar_volume := 0;
     m_avg_trade_dollars := 0;
     m_realized_pnl := 0;
     m_win_rate := 0;
     m_winning_trades := 0;
     m_losing_trades := 0;
     m_total_trades := 0 |}.

(** [total_dollar_volume / trade_count if trade_count > 0 else 0.0] *)
Definition avg_trade_dollars (st : ledger) : result Q :=
  if (0 <? trade_count st)%Z
  then py_div (total_dollar_volume st) (inject_Z (trade_count st))
  else Ok 0.

(** [(winning_trades / total_closed_trades * 100) if total_closed_trades > 0
    else 0.0] *)
Definition win_rate (st : ledger) : result Q :=
  let total_closed_trades := (winning_trades st + losing_trades st)%Z in
  if (0 <? total_closed_trades)%Z
  then q ← py_div (inject_Z (winning_trades st)) (inject_Z total_closed_trades);
       mret (q * 100)
  else Ok 0.

Definition build_metrics (st : ledger) : result metrics :=
  avg ← avg_trade_dollars st;
  wr ← win_rate st;
  mret {| m_total_dollar_volume := py_round (total_dollar_volume st) 2;
          m_avg_trade_dollars := py_round avg 2;
          m_realized_pnl := py_round (realized_pnl st) 2;
          m_win_rate := py_round wr 2;
          m_winning_trades := winning_trades st;
          m_losing_trades := losing_trades st;
          m_total_trades := trade_count st |}.

(** What the function hands back: the early exit returns the metrics dict
    alone, the other two exits return a pair. *)
Inductive trades_return : Type :=
| BareDict (m : metrics)
| Pair (m : metrics) (open_positions : gmap key position).

Definition fetch_user_trades_with_prices (resp : response) : trades_return :=
  catch
    (data ← await_json resp;
     items ← items_of data;
     if negb (truthy items) then mret (BareDict zero_metrics)
     else
       xs ← py_iter items;
       st ← for_each loop_body initial_ledger xs;
       m ← build_metrics st;
       mret (Pair m (positions st)))
    (fun _ => Pair zero_metrics ∅).

(** ** [fetch_user_positions_dollars] *)

(** The two accumulators of the loop over the live positions. *)
Record valuation : Type := Valuation {
  position_value_dollars : Q;
  unrealized_pnl : Q
}.

(** The returned dict. *)
Record position_metrics : Type := PositionMetrics {
  pm_position_value_dollars : Q;
  pm_unrealized_pnl : Q
}.

(** [float(item.get("size", 0) or item.get("tokens", 0) or 0)] *)
Definition live_size (item : json) : result Q :=
  sz ← dict_get item "size" (JNum 0);
  sz ← or_else sz (tk ← dict_get item "tokens" (JNum 0); or_else tk (Ok (JNum 0)));
  py_float sz.

Definition live_body (open_positions : gmap key position)
    (acc : valuation) (item : json) : result valuation :=
  size ← live_size item;
  current_price ← float_or_zero item "price";
  let current_value := size * current_price in
  let position_value_dollars := position_value_dollars acc + current_value in
  raw_key ← item_key item;
  position_key ← hash_key raw_key;
  match open_positions !! position_key with
  | Some p =>
      if Qltb 0 (shares p) then
        avg_cost ← py_div (cost_basis p) (shares p);
        let initial_cost := size * avg_cost in
        mret {| position_value_dollars := position_value_dollars;
                unrealized_pnl := unrealized_pnl acc + (current_value - initial_cost) |}
      else
        mret {| position_value_dollars := position_value_dollars;
                unrealized_pnl := unrealized_pnl acc |}
  | None =>
      mret {| position_value_dollars := position_value_dollars;
              unrealized_pnl := unrealized_pnl acc |}
  end.

Definition fetch_user_positions_dollars (resp : response)
    (open_positions : gmap key position) : position_metrics :=
  catch
    (data ← await_json resp;
     items ← items_of data;
     xs ← py_iter items;
     acc ← for_each (live_body open_positions)
             {| position_value_dollars := 0; unrealized_pnl := 0 |} xs;
     mret {| pm_position_value_dollars := py_round (position_value_dollars acc) 2;
             pm_unrealized_pnl := py_round (unrealized_pnl acc) 2 |})
    (fun _ => {| pm_position_value_dollars := 0; pm_unrealized_pnl := 0 |}).

(** ** [enhance_user] and the batch loop of [main] *)

(** The two endpoints, as functions of the wallet. *)
Record api : Type := Api {
  get_trades : string -> response;
  get_positions : string -> response
}.

(** A CSV row as [csv.DictReader] yields it. *)
Definition csv_row : Type := list (string * string).

Fixpoint row_get (row : csv_row) (k : string) : result string :=
  match row with
  | nil => Raise KeyError
  | (k', v) :: rest => if String.eqb k' k then Ok v else row_get rest k
  end.

(** [trade_metrics, open_positions = ...]: the right-hand side is iterated
    and must yield exactly two values.  A pair does; the metrics dict
    yields its seven keys. *)
Definition unpack_pair (r : trades_return) : result (metrics * gmap key position) :=
  match r with
  | Pair m ps => Ok (m, ps)
  | BareDict _ => Raise ValueError
  end.

(** The row with the new fields. *)
Record enhanced_row : Type := EnhancedRow {
  row_base : csv_row;
  row_total_dollar_volume : Q;
  row_avg_trade_dollars : Q;
  row_realized_pnl : Q;
  row_unrealized_pnl : Q;
  row_total_pnl : Q;
  row_win_rate_percent : Q;
  row_winning_trades : Z;
  row_losing_trades : Z;
  row_position_value_dollars : Q
}.

Definition enhance_user (net : api) (row : csv_row) : result enhanced_row :=
  wallet ← row_get row "wallet";
  unpacked ← unpack_pair (fetch_user_trades_with_prices (get_trades net wallet));
  let trade_metrics := fst unpacked in
  let open_positions := snd unpacked in
  let position_metrics :=
    fetch_user_positions_dollars (get_positions net wallet) open_positions in
  let total_pnl := m_realized_pnl trade_metrics + pm_unrealized_pnl position_metrics in
  mret {| row_base := row;
          row_total_dollar_volume := m_total_dollar_volume trade_metrics;
          row_avg_trade_dollars := m_avg_trade_dollars trade_metrics;
          row_realized_pnl := m_realized_pnl trade_metrics;
          row_unrealized_pnl := pm_unrealized_pnl position_metrics;
          row_total_pnl := py_round total_pnl 2;
          row_win_rate_percent := m_win_rate trade_metrics;
          row_winning_trades := m_winning_trades trade_metrics;
          row_losing_trades := m_losing_trades trade_metrics;
          row_position_value_dollars := pm_position_value_dollars position_metrics |}.

(** [for i, user in enumerate(users, 1): enhanced_users.append(await
    enhance_user(user))] *)
Definition main_body (net : api) (enhanced_users : list enhanced_row) (user : csv_row)
  : result (list enhanced_row) :=
  enhanced ← enhance_user net user;
  mret (enhanced_users ++ enhanced :: nil)%list.

Definition main (net : api) (users : list csv_row) : result (list enhanced_row) :=
  for_each (main_body net) nil users.

(** * Notions used in the statements *)

(** The key a trade is booked under. *)
Definition key_of (t : trade) : result key := hash_key (market_id t, outcome t).

(** The trades read off a list of items, when every item can be read. *)
Fixpoint normalize_all (xs : list json) : result (list trade) :=
  match xs with
  | nil => Ok nil
  | x :: rest => t ← normalize x; ts ← normalize_all rest; mret (t :: ts)
  end.

(** Every entry of the map holds a positive number of shares. *)
Definition all_open (ps : gmap key position) : Prop :=
  map_Forall (fun _ p => 0 < shares p) ps.

(** If the trade is a BUY, its size is positive. *)
Definition buys_positive (t : trade) : Prop := side t = "BUY" -> 0 < size t.

(** The trade is booked under [k]. *)
Definition on_key (k : key) (t : trade) : bool :=
  match key_of t with
  | Ok k' => bool_decide (k' = k)
  | Raise _ => false
  end.

(** Sum of a list of amounts. *)
Definition sum_Q (l : list Q) : Q := fold_right Qplus 0 l.

(** Sum of the sizes, and of the [size*price] amounts, of the trades booked
    under [k]. *)
Definition bought_shares (k : key) (ts : list trade) : Q :=
  sum_Q (map size (List.filter (on_key k) ts)).

Definition bought_dollars (k : key) (ts : list trade) : Q :=
  sum_Q (map (fun t => size t * price t) (List.filter (on_key k) ts)).

(** Shares and cost basis held under [k], 0 when there is no entry. *)
Definition held_shares (st : ledger) (k : key) : Q :=
  match positions st !! k with Some p => shares p | None => 0 end.

Definition held_cost (st : ledger) (k : key) : Q :=
  match positions st !! k with Some p => cost_basis p | None => 0 end.

(** A BUY trade; a trade whose key can be hashed. *)
Definition is_buy (t : trade) : Prop := side t = "BUY".

Definition keyed (t : trade) : Prop := is_ok (key_of t) = true.

(** The key a live record is looked up under. *)
Definition live_key (item : json) : result key :=
  raw_key ← item_key item;
  hash_key raw_key.


(** The field is absent, or holds a falsy value (null, 0, false, an empty
    string or container). *)
Definition absent_or_falsy (fields : list (string * json)) (k : string) : Prop :=
  match assoc_get fields k with
  | Some v => truthy v = false
  | None => True
  end.


(** ** Notions of the further properties *)

(** The dollar amounts of a list of trades, summed. *)
Definition dollar_amounts (ts : list trade) : Q :=
  sum_Q (map (fun t => size t * price t) ts).

(** Number of SELL trades of a list. *)
Definition sell_count (ts : list trade) : Z :=
  Z.of_nat (length (List.filter (fun t => String.eqb (side t) "SELL") ts)).









(** The size, the price and the key of a live record can all be read. *)
Definition live_readable (item : json) : bool :=
  is_ok (live_size item) && is_ok (float_or_zero item "price")
  && is_ok (live_key item).

(** [size * current_price] of a live record, 0 when they cannot be read. *)
Definition live_value (item : json) : Q :=
  catch (size ← live_size item;
         current_price ← float_or_zero item "price";
         mret (size * current_price))
        (fun _ => 0).

(** The accumulators of the loop over the live positions, at its start. *)
Definition no_valuation : valuation :=
  {| position_value_dollars := 0; unrealized_pnl := 0 |}.

(** A decoded body that is neither a list nor a dict. *)
Definition scalar_body (data : json) : Prop :=
  match data with
  | JArr _ | JObj _ => False
  | _ => True
  end.

(** The side is [BUY] or [SELL]. *)
Definition buy_or_sell (t : trade) : bool :=
  String.eqb (side t) "BUY" || String.eqb (side t) "SELL".

(** Two ledgers with the same positions, realized PnL and counters. *)
Definition same_book (st1 st2 : ledger) : Prop :=
  positions st1 = positions st2 /\
  realized_pnl st1 = realized_pnl st2 /\
  winning_trades st1 = winning_trades st2 /\
  losing_trades st1 = losing_trades st2.

(** The ledger with other running totals. *)
Definition with_totals (v : Q) (c : Z) (st : ledger) : ledger :=
  {| total_dollar_volume := v;
     trade_count := c;
     positions := positions st;
     realized_pnl := realized_pnl st;
     winning_trades := winning_trades st;
     losing_trades := losing_trades st |}.

(** [item.get(k, d)] on the fields of a dict. *)
Definition get_or (fields : list (string * json)) (k : string) (d : json) : json :=
  match assoc_get fields k with
  | Some v => v
  | None => d
  end.

(** * Sample data *)

Definition trade_item (sd : string) (sz pr : json) (market : string) : json :=
  JObj (("size", sz) :: ("price", pr) :: ("side", JStr sd)
        :: ("market", JStr market) :: ("outcome", JStr "Yes") :: nil).

Definition live_item (sz pr : json) (market : string) : json :=
  JObj (("size", sz) :: ("price", pr)
        :: ("market", JStr market) :: ("outcome", JStr "Yes") :: nil).

Definition mk_trade (sd : string) (sz pr : Q) (market : string) : trade :=
  {| size := sz; price := pr; side := sd;
     market_id := JStr market; outcome := JStr "Yes" |}.

Definition k_m1 : key := (HStr "m1", HStr "Yes").
Definition k_m2 : key := (HStr "m2", HStr "Yes").

(** Twenty shares bought for 30 dollars in all. *)
Definition st_held : ledger :=
  {| total_dollar_volume := 30;
     trade_count := 2;
     positions := {[ k_m1 := {| shares := 20; cost_basis := 30 |} ]};
     realized_pnl := 0;
     winning_trades := 0;
     losing_trades := 0 |}.

Definition three_buys : list trade :=
  mk_trade "BUY" 10 1 "m1" :: mk_trade "BUY" 10 2 "m1"
  :: mk_trade "BUY" 4 (1 # 2) "m2" :: nil.

Definition buy_close_buy : list trade :=
  mk_trade "BUY" 10 1 "m1" :: mk_trade "SELL" 10 2 "m1"
  :: mk_trade "BUY" 3 1 "m1" :: nil.

(** A BUY record whose size is null. *)
Definition null_size_buy : json := trade_item "BUY" JNull (JNum (1 # 2)) "m1".



Definition good_buy : json := trade_item "BUY" (JNum 10) (JNum (1 # 2)) "m1".

(** One position closed with a gain of 1/256, another still open. *)
Definition small_gain_trades : list json :=
  trade_item "BUY" (JNum 1) (JNum (1 # 2)) "m1"
  :: trade_item "SELL" (JNum 1) (JNum (129 # 256)) "m1"
  :: trade_item "BUY" (JNum 1) (JNum (1 # 2)) "m2" :: nil.

(** The open position, marked 1/256 above its cost. *)
Definition small_gain_live : list json :=
  live_item (JNum 1) (JNum (129 # 256)) "m2" :: nil.

Definition small_gain_net : api :=
  {| get_trades := fun _ => Body (JArr small_gain_trades);
     get_positions := fun _ => Body (JArr small_gain_live) |}.

Definition row_of (wallet : string) : csv_row := ("wallet", wallet) :: nil.

(** Wallet [0xB] has no trade; the others have one. *)
Definition batch_net : api :=
  {| get_trades := fun wallet =>
       if String.eqb wallet "0xB" then Body (JArr nil)
       else Body (JArr (good_buy :: nil));
     get_positions := fun _ => Body (JArr nil) |}.





(** ** Sample data of the further properties *)



(** A record of another side between a buy and a sell. *)
Definition buy_hold_sell : list trade :=
  mk_trade "BUY" 10 1 "m1" :: mk_trade "HOLD" 7 1 "m1"
  :: mk_trade "SELL" 4 2 "m1" :: nil.

(** The same record with its side in lower and in upper case. *)
Definition buy_fields (sd : string) : list (string * json) :=
  ("side", JStr sd) :: ("size", JNum 10) :: ("price", JNum (1 # 2))
  :: ("market", JStr "m1") :: ("outcome", JStr "Yes") :: nil.

(** A record that names its market under [marketId], and two that do not
    name it at all. *)
Definition market_id_only : list (string * json) :=
  ("marketId", JStr "m1") :: ("outcome", JStr "Yes") :: nil.

Definition no_market_a : list (string * json) :=
  ("size", JNum 1) :: ("outcome", JStr "Yes") :: nil.

Definition no_market_b : list (string * json) :=
  ("size", JNum 2) :: ("market", JNull) :: ("outcome", JStr "Yes") :: nil.


(** The trades endpoint is down; the positions endpoint answers. *)
Definition trades_down_net : api :=
  {| get_trades := fun _ => FetchFailed HTTPError;
     get_positions := fun _ => Body (JArr small_gain_live) |}.

(** * Properties *)

(** ** Basic facts about the primitives *)

Example float_of_str_examples :
  float_of_str "0.30" = Some (3 # 10) /\
  float_of_str " -1_0.5e1 " = Some (-105 # 1) /\
  float_of_str ".5" = Some (1 # 2) /\
  float_of_str "5." = Some (5 # 1) /\
  float_of_str "1e-2" = Some (1 # 100) /\
  float_of_str "abc" = None /\
  float_of_str "" = None /\
  float_of_str "1__0" = None /\
  float_of_str "1.2.3" = None /\
  float_of_str "-" = None.
Proof. vm_compute. repeat split. Qed.

Example upper_string_example : upper_string "Sell" = "SELL".
Proof. reflexivity. Qed.

Lemma Qltb_lt (a b : Q) : Qltb a b = true <-> a < b.
Proof.
  unfold Qltb. rewrite negb_true_iff, <- not_true_iff_false, Qle_bool_iff.
  split; [apply Qnot_le_lt | apply Qlt_not_le].
Qed.

Lemma Qltb_ge (a b : Q) : Qltb a b = false <-> b <= a.
Proof. unfold Qltb. rewrite negb_false_iff. apply Qle_bool_iff. Qed.

Lemma py_div_ok (a b : Q) : ~ b == 0 -> py_div a b = Ok (a / b).
Proof.
  intros Hb. unfold py_div.
  destruct (Qeq_bool b 0) eqn:E; [|reflexivity].
  apply Qeq_bool_iff in E. contradiction.
Qed.

Lemma py_div_pos (a b : Q) : 0 < b -> py_div a b = Ok (a / b).
Proof. intros Hb. apply py_div_ok. intros E. rewrite E in Hb. revert Hb. apply Qlt_irrefl. Qed.

Lemma bind_inv {A B : Type} (m : result A) (f : A -> result B) (b : B) :
  (x ← m; f x) = Ok b -> exists a, m = Ok a /\ f a = Ok b.
Proof. destruct m as [a|e]; [eauto | discriminate]. Qed.

(** Splits [H : (x ← m; k x) = Ok b] into [Hx : m = Ok x] and
    [H : k x = Ok b]. *)
Tactic Notation "unbind" hyp(H) "as" ident(x) ident(Hx) :=
  apply bind_inv in H as (x & Hx & H).

(** What [buy] comes to: the position (a fresh one when the key is new)
    grows by the trade. *)
Lemma buy_spec (st : ledger) (t : trade) (d : Q) (k : key) :
  key_of t = Ok k ->
  buy st t d =
    Ok (set_positions st
          (<[k := match positions st !! k with
                  | Some p => {| shares := shares p + size t;
                                 cost_basis := cost_basis p + d |}
                  | None => {| shares := 0 + size t; cost_basis := 0 + d |}
                  end]> (positions st))).
Proof.
  unfold key_of, buy. intros ->. cbn.
  destruct (positions st !! k) as [p|] eqn:Hk; unfold subscript.
  - rewrite Hk. cbn. rewrite lookup_insert_eq. cbn.
    rewrite insert_insert_eq. reflexivity.
  - rewrite lookup_insert_eq. cbn. rewrite lookup_insert_eq. cbn.
    rewrite !insert_insert_eq. reflexivity.
Qed.

(** What [sell] comes to on a matched position. *)
Lemma sell_matched (st : ledger) (t : trade) (d : Q) (k : key) (p : position) :
  key_of t = Ok k ->
  positions st !! k = Some p ->
  0 < shares p ->
  let avg_cost := cost_basis p / shares p in
  let trade_pnl := d - avg_cost * size t in
  sell st t d =
    Ok {| total_dollar_volume := total_dollar_volume st;
          trade_count := trade_count st;
          positions :=
            if Qltb 0 (shares p - size t)
            then <[k := {| shares := shares p - size t;
                           cost_basis := avg_cost * (shares p - size t) |}]> (positions st)
            else delete k (positions st);
          realized_pnl := realized_pnl st + trade_pnl;
          winning_trades :=
            if Qltb 0 trade_pnl then (winning_trades st + 1)%Z else winning_trades st;
          losing_trades :=
            if Qltb 0 trade_pnl then losing_trades st
            else if Qltb trade_pnl 0 then (losing_trades st + 1)%Z
            else losing_trades st |}.
Proof.
  unfold key_of, sell. intros -> Hk Hpos. cbn.
  rewrite Hk. rewrite (proj2 (Qltb_lt _ _) Hpos).
  rewrite (py_div_pos _ _ Hpos). cbn.
  unfold subscript. rewrite Hk. cbn. rewrite lookup_insert_eq. cbn.
  destruct (Qltb 0 (shares p - size t)).
  - rewrite insert_insert_eq. reflexivity.
  - rewrite delete_insert_eq. reflexivity.
Qed.

(** What [sell] comes to when there is nothing to match. *)
Lemma sell_unmatched (st : ledger) (t : trade) (d : Q) (k : key) :
  key_of t = Ok k ->
  (positions st !! k = None \/
   exists p, positions st !! k = Some p /\ shares p <= 0) ->
  sell st t d = Ok st.
Proof.
  unfold key_of, sell. intros -> H. cbn.
  destruct H as [-> | (p & -> & Hle)]; [reflexivity|].
  rewrite (proj2 (Qltb_ge _ _) Hle). reflexivity.
Qed.

Lemma apply_trade_sell (st : ledger) (t : trade) :
  side t = "SELL" ->
  apply_trade st t =
    sell {| total_dollar_volume := total_dollar_volume st + size t * price t;
            trade_count := trade_count st + 1;
            positions := positions st;
            realized_pnl := realized_pnl st;
            winning_trades := winning_trades st;
            losing_trades := losing_trades st |} t (size t * price t).
Proof. unfold apply_trade. intros ->. reflexivity. Qed.

Lemma apply_trade_buy (st : ledger) (t : trade) :
  side t = "BUY" ->
  apply_trade st t =
    buy {| total_dollar_volume := total_dollar_volume st + size t * price t;
           trade_count := trade_count st + 1;
           positions := positions st;
           realized_pnl := realized_pnl st;
           winning_trades := winning_trades st;
           losing_trades := losing_trades st |} t (size t * price t).
Proof. unfold apply_trade. intros ->. reflexivity. Qed.

(** ** Matched sells *)

(** C1. A SELL matched to a position with [shares > 0] adds
    [size*price - (cost_basis/shares)*size] to realized PnL and subtracts
    [size] from the shares.  If shares remain, the cost basis becomes the
    pre-sell average cost times the remaining shares, so the average cost of
    the position is what it was; otherwise the entry is removed from the
    map.  No other entry changes. *)
Theorem sell_matched_updates_ledger (st : ledger) (t : trade) (k : key) (p : position) :
  side t = "SELL" ->
  key_of t = Ok k ->
  positions st !! k = Some p ->
  0 < shares p ->
  exists st',
    apply_trade st t = Ok st' /\
    realized_pnl st' =
      realized_pnl st + (size t * price t - cost_basis p / shares p * size t) /\
    (0 < shares p - size t ->
       exists p',
         positions st' !! k = Some p' /\
         shares p' = shares p - size t /\
         cost_basis p' = cost_basis p / shares p * (shares p - size t) /\
         cost_basis p' / shares p' == cost_basis p / shares p) /\
    (shares p - size t <= 0 -> positions st' !! k = None) /\
    (forall k', k' <> k -> positions st' !! k' = positions st !! k').
Proof.
  intros Hside Hkey Hk Hpos.
  rewrite (apply_trade_sell _ _ Hside).
  match goal with
  | |- context [sell ?s _ _] => rewrite (sell_matched s t _ k p Hkey Hk Hpos)
  end.
  eexists. split; [reflexivity|]. cbn.
  split; [reflexivity|].
  split; [|split].
  - intros Hrem. rewrite (proj2 (Qltb_lt _ _) Hrem).
    eexists. rewrite lookup_insert_eq. split; [reflexivity|]. cbn.
    split; [reflexivity|]. split; [reflexivity|].
    apply Qdiv_mult_l. intros E. rewrite E in Hrem. revert Hrem. apply Qlt_irrefl.
  - intros Hrem. rewrite (proj2 (Qltb_ge _ _) Hrem). apply lookup_delete_eq.
  - intros k' Hne. destruct (Qltb 0 (shares p - size t)).
    + apply lookup_insert_ne. congruence.
    + apply lookup_delete_ne. congruence.
Qed.

(** ** Unmatched sells *)

(** C5. A SELL whose key has no open position, or a position with
    [shares <= 0], adds [size*price] to the dollar volume and one to the
    trade count, and leaves realized PnL, both counters and the position
    map as they were. *)
Theorem sell_unmatched_counts_volume_only (st : ledger) (t : trade) (k : key) :
  side t = "SELL" ->
  key_of t = Ok k ->
  (positions st !! k = None \/
   exists p, positions st !! k = Some p /\ shares p <= 0) ->
  exists st',
    apply_trade st t = Ok st' /\
    total_dollar_volume st' = total_dollar_volume st + size t * price t /\
    trade_count st' = (trade_count st + 1)%Z /\
    realized_pnl st' = realized_pnl st /\
    winning_trades st' = winning_trades st /\
    losing_trades st' = losing_trades st /\
    positions st' = positions st.
Proof.
  intros Hside Hkey Hun.
  rewrite (apply_trade_sell _ _ Hside).
  match goal with
  | |- context [sell ?s _ _] => rewrite (sell_unmatched s t _ k Hkey Hun)
  end.
  eexists. split; [reflexivity|]. cbn. repeat split.
Qed.

(** ** The loop over the items, and the trades it reads *)

Lemma for_each_cons {S X : Type} (body : S -> X -> result S) (st : S) (x : X) (xs : list X) :
  for_each body st (x :: xs) = (st1 ← body st x; for_each body st1 xs).
Proof. reflexivity. Qed.

Lemma normalize_all_cons (x : json) (xs : list json) :
  normalize_all (x :: xs) =
    (t ← normalize x; ts ← normalize_all xs; mret (t :: ts)).
Proof. reflexivity. Qed.

(** A run of the loop that completes is a run of [apply_trade] over the
    normalized trades, in order. *)
Lemma loop_body_run_trades (xs : list json) (st st' : ledger) :
  for_each loop_body st xs = Ok st' <->
  exists ts, normalize_all xs = Ok ts /\ run_trades st ts = Ok st'.
Proof.
  revert st. induction xs as [|x xs IH]; intros st.
  - cbn. split.
    + intros H. exists nil. split; [reflexivity | exact H].
    + intros (ts & Hn & Hr). injection Hn as <-. exact Hr.
  - rewrite for_each_cons, normalize_all_cons.
    assert (Hb : loop_body st x = (t ← normalize x; apply_trade st t)) by reflexivity.
    rewrite Hb. clear Hb.
    destruct (normalize x) as [t|e]; cbn [mbind result_bind].
    + destruct (apply_trade st t) as [st1|e] eqn:Ha; cbn [mbind result_bind].
      * rewrite IH. split.
        -- intros (ts & Hn & Hr). exists (t :: ts). rewrite Hn.
           split; [reflexivity|].
           unfold run_trades. rewrite for_each_cons, Ha. exact Hr.
        -- intros (ts & Hn & Hr). destruct (normalize_all xs) as [ts'|]; [|discriminate].
           injection Hn as <-. exists ts'. split; [reflexivity|].
           unfold run_trades in Hr. rewrite for_each_cons, Ha in Hr. exact Hr.
      * split; [discriminate|].
        intros (ts & Hn & Hr). destruct (normalize_all xs) as [ts'|]; [|discriminate].
        injection Hn as <-.
        unfold run_trades in Hr. rewrite for_each_cons, Ha in Hr. discriminate.
    + split; [discriminate|]. intros (ts & Hn & _). discriminate.
Qed.

Lemma run_trades_cons (st : ledger) (t : trade) (ts : list trade) :
  run_trades st (t :: ts) = (st1 ← apply_trade st t; run_trades st1 ts).
Proof. reflexivity. Qed.

(** ** Open positions hold a positive number of shares *)

Lemma apply_trade_all_open (st st' : ledger) (t : trade) :
  buys_positive t ->
  all_open (positions st) ->
  apply_trade st t = Ok st' ->
  all_open (positions st').
Proof.
  intros Hbuy Hinv Hstep. unfold apply_trade in Hstep.
  destruct (String.eqb (side t) "BUY") eqn:Eb.
  - apply String.eqb_eq in Eb. specialize (Hbuy Eb).
    destruct (key_of t) as [k|e] eqn:Hk.
    + rewrite (buy_spec _ t _ k Hk) in Hstep. injection Hstep as <-. cbn.
      apply map_Forall_insert_2; [|exact Hinv].
      destruct (positions st !! k) as [p|] eqn:Hp; cbn.
      * pose proof (Hinv k p Hp) as Hpos. cbn in Hpos. lra.
      * lra.
    + unfold buy in Hstep. unfold key_of in Hk. rewrite Hk in Hstep. discriminate.
  - destruct (String.eqb (side t) "SELL") eqn:Es.
    + destruct (key_of t) as [k|e] eqn:Hk.
      * destruct (positions st !! k) as [p|] eqn:Hp.
        -- destruct (Qlt_le_dec 0 (shares p)) as [Hpos|Hle].
           ++ match type of Hstep with
              | sell ?s _ _ = _ =>
                  rewrite (sell_matched s t _ k p Hk Hp Hpos) in Hstep
              end.
              injection Hstep as <-. cbn.
              destruct (Qltb 0 (shares p - size t)) eqn:Hrem.
              ** apply map_Forall_insert_2; [|exact Hinv].
                 cbn. apply Qltb_lt. exact Hrem.
              ** apply map_Forall_delete. exact Hinv.
           ++ match type of Hstep with
              | sell ?s _ _ = _ =>
                  rewrite (sell_unmatched s t _ k Hk) in Hstep
              end.
              ** injection Hstep as <-. exact Hinv.
              ** right. exists p. split; [exact Hp | exact Hle].
        -- match type of Hstep with
           | sell ?s _ _ = _ =>
               rewrite (sell_unmatched s t _ k Hk) in Hstep
           end.
           ++ injection Hstep as <-. exact Hinv.
           ++ left. exact Hp.
      * unfold sell in Hstep. unfold key_of in Hk. rewrite Hk in Hstep. discriminate.
    + injection Hstep as <-. exact Hinv.
Qed.

Lemma run_trades_all_open (ts : list trade) (st st' : ledger) :
  Forall buys_positive ts ->
  all_open (positions st) ->
  run_trades st ts = Ok st' ->
  all_open (positions st').
Proof.
  revert st. induction ts as [|t ts IH]; intros st Hall Hinv Hrun.
  - injection Hrun as <-. exact Hinv.
  - rewrite run_trades_cons in Hrun.
    apply bind_inv in Hrun as (st1 & Hstep & Hrest).
    inversion Hall as [|? ? Ht Hts]; subst.
    exact (IH st1 Hts (apply_trade_all_open _ _ _ Ht Hinv Hstep) Hrest).
Qed.

(** C3, as amended.  When every BUY of the run has a positive size, every
    entry of the position map has [shares > 0] after each trade of the run:
    a SELL that leaves [shares <= 0] deletes the entry. *)
Theorem open_positions_have_positive_shares
    (ts : list trade) (n : nat) (st : ledger) :
  Forall buys_positive ts ->
  run_trades initial_ledger (take n ts) = Ok st ->
  all_open (positions st).
Proof.
  intros Hall Hrun.
  apply (run_trades_all_open (take n ts) initial_ledger st).
  - apply Forall_take. exact Hall.
  - apply map_Forall_empty.
  - exact Hrun.
Qed.

(** ** Runs of buys only *)

Lemma on_key_true (k : key) (t : trade) : on_key k t = true <-> key_of t = Ok k.
Proof.
  unfold on_key. destruct (key_of t) as [k'|e].
  - rewrite bool_decide_eq_true. split; congruence.
  - split; discriminate.
Qed.

Lemma filter_on_key_nil (k : key) (ts : list trade) :
  List.filter (on_key k) ts = nil <-> forall t, In t ts -> key_of t <> Ok k.
Proof.
  induction ts as [|t ts IH]; cbn.
  - split; [intros _ t [] | reflexivity].
  - destruct (on_key k t) eqn:E.
    + split; [discriminate|]. intros H. exfalso.
      apply (H t); [left; reflexivity | apply on_key_true; exact E].
    + rewrite IH. split.
      * intros H t' [<- | Hin]; [|auto].
        intros Hk. apply on_key_true in Hk. congruence.
      * intros H t' Hin. apply H. right. exact Hin.
Qed.

(** One buy: counters untouched, the position under the trade's key grows
    by the trade, the others stay. *)
Lemma apply_buy (st : ledger) (t : trade) :
  is_buy t -> keyed t ->
  exists st',
    apply_trade st t = Ok st' /\
    realized_pnl st' = realized_pnl st /\
    winning_trades st' = winning_trades st /\
    losing_trades st' = losing_trades st /\
    forall k,
      if on_key k t
      then (exists p, positions st' !! k = Some p) /\
           held_shares st' k == held_shares st k + size t /\
           held_cost st' k == held_cost st k + size t * price t
      else positions st' !! k = positions st !! k.
Proof.
  intros Hb Hk. unfold keyed in Hk.
  destruct (key_of t) as [k0|e] eqn:Hk0; [clear Hk | discriminate].
  rewrite (apply_trade_buy _ _ Hb).
  match goal with
  | |- context [buy ?s _ _] => rewrite (buy_spec s t _ k0 Hk0)
  end.
  eexists. split; [reflexivity|]. cbn. repeat (split; [reflexivity|]).
  intros k. unfold on_key. rewrite Hk0.
  destruct (bool_decide (k0 = k)) eqn:E.
  - apply bool_decide_eq_true in E. subst k.
    unfold held_shares, held_cost. cbn. rewrite lookup_insert_eq.
    split; [eauto|].
    destruct (positions st !! k0); cbn; split; reflexivity.
  - apply bool_decide_eq_false in E. apply lookup_insert_ne. exact E.
Qed.

Lemma run_buys (ts : list trade) (st : ledger) :
  Forall is_buy ts -> Forall keyed ts ->
  exists st',
    run_trades st ts = Ok st' /\
    realized_pnl st' = realized_pnl st /\
    winning_trades st' = winning_trades st /\
    losing_trades st' = losing_trades st /\
    forall k,
      held_shares st' k == held_shares st k + bought_shares k ts /\
      held_cost st' k == held_cost st k + bought_dollars k ts /\
      (positions st' !! k = None <->
       positions st !! k = None /\ List.filter (on_key k) ts = nil).
Proof.
  revert st. induction ts as [|t ts IH]; intros st Hb Hk.
  - exists st. split; [reflexivity|]. repeat (split; [reflexivity|]).
    intros k. unfold bought_shares, bought_dollars. cbn.
    split; [ring|]. split; [ring|]. tauto.
  - inversion Hb as [|? ? Hb1 Hbs]; subst. inversion Hk as [|? ? Hk1 Hks]; subst.
    destruct (apply_buy st t Hb1 Hk1) as (st1 & Hstep & Hr1 & Hw1 & Hl1 & Hpos1).
    destruct (IH st1 Hbs Hks) as (st' & Hrun & Hr & Hw & Hl & Hpos).
    exists st'. rewrite run_trades_cons, Hstep. split; [exact Hrun|].
    split; [congruence|]. split; [congruence|]. split; [congruence|].
    intros k. specialize (Hpos k) as (Hs & Hc & Hnone). specialize (Hpos1 k).
    unfold bought_shares, bought_dollars in *. cbn [List.filter].
    destruct (on_key k t) eqn:E; cbn [map sum_Q fold_right].
    + destruct Hpos1 as ((p & Hp) & Hs1 & Hc1).
      split; [rewrite Hs, Hs1; unfold sum_Q; ring|].
      split; [rewrite Hc, Hc1; unfold sum_Q; ring|].
      rewrite Hnone, Hp. split; [intros [? _] | intros [_ ?]]; discriminate.
    + unfold held_shares, held_cost in *. rewrite Hpos1 in *.
      split; [exact Hs|]. split; [exact Hc|]. exact Hnone.
Qed.

(** C2. A run over BUY trades only ends with realized PnL 0 and no winning
    or losing trade; every key that was traded has a position whose shares
    are the sum of that key's sizes and whose cost basis is the sum of that
    key's [size*price] amounts, and no other key has an entry. *)
Theorem all_buys_accumulate (ts : list trade) :
  Forall is_buy ts ->
  Forall keyed ts ->
  exists st,
    run_trades initial_ledger ts = Ok st /\
    realized_pnl st = 0 /\
    winning_trades st = 0%Z /\
    losing_trades st = 0%Z /\
    (forall k t,
       In t ts -> key_of t = Ok k ->
       exists p,
         positions st !! k = Some p /\
         shares p == bought_shares k ts /\
         cost_basis p == bought_dollars k ts) /\
    (forall k,
       (forall t, In t ts -> key_of t <> Ok k) -> positions st !! k = None).
Proof.
  intros Hb Hk.
  destruct (run_buys ts initial_ledger Hb Hk) as (st & Hrun & Hr & Hw & Hl & Hpos).
  exists st. split; [exact Hrun|].
  split; [exact Hr|]. split; [exact Hw|]. split; [exact Hl|].
  split.
  - intros k t Hin Hkey. destruct (Hpos k) as (Hs & Hc & Hnone).
    destruct (positions st !! k) as [p|] eqn:Hp.
    + exists p. split; [reflexivity|].
      unfold held_shares, held_cost in Hs, Hc. rewrite Hp in Hs, Hc.
      cbn in Hs, Hc. rewrite lookup_empty in Hs, Hc.
      split; [rewrite Hs | rewrite Hc]; ring.
    + exfalso. destruct Hnone as [Hnone _].
      destruct (Hnone eq_refl) as [_ Hnil].
      apply (proj1 (filter_on_key_nil k ts) Hnil t Hin Hkey).
  - intros k Hno. destruct (Hpos k) as (_ & _ & Hnone). apply Hnone.
    split; [apply lookup_empty | apply filter_on_key_nil; exact Hno].
Qed.

(** ** The reconciliation of live positions *)

(** C6. A live record of reported size [sz] and price [pr] adds [sz*pr] to
    [position_value_dollars].  When its key matches an open position with
    [shares > 0], unrealized PnL grows by [sz*pr - sz*(cost_basis/shares)],
    with the reported size [sz] and not the position's shares; when no open
    position matches (or the matching one has no shares), unrealized PnL
    stays as it was. *)
Theorem live_record_contribution
    (open_positions : gmap key position) (acc : valuation) (item : json)
    (sz pr : Q) (k : key) :
  live_size item = Ok sz ->
  float_or_zero item "price" = Ok pr ->
  live_key item = Ok k ->
  exists acc',
    live_body open_positions acc item = Ok acc' /\
    position_value_dollars acc' = position_value_dollars acc + sz * pr /\
    (forall p,
       open_positions !! k = Some p -> 0 < shares p ->
       unrealized_pnl acc' =
         unrealized_pnl acc + (sz * pr - sz * (cost_basis p / shares p))) /\
    (open_positions !! k = None -> unrealized_pnl acc' = unrealized_pnl acc) /\
    (forall p,
       open_positions !! k = Some p -> shares p <= 0 ->
       unrealized_pnl acc' = unrealized_pnl acc).
Proof.
  intros Hsz Hpr Hk. unfold live_body, live_key in *.
  rewrite Hsz, Hpr. cbn [mbind result_bind].
  destruct (item_key item) as [raw|e]; [|discriminate].
  cbn [mbind result_bind] in *. rewrite Hk. cbn [mbind result_bind].
  destruct (open_positions !! k) as [p|] eqn:Hp.
  - destruct (Qltb 0 (shares p)) eqn:Hpos.
    + apply Qltb_lt in Hpos. rewrite (py_div_pos _ _ Hpos).
      eexists. split; [reflexivity|]. cbn. split; [reflexivity|].
      split; [|split].
      * intros p' [= <-] _. reflexivity.
      * discriminate.
      * intros p' [= <-] Hle. exfalso. lra.
    + apply Qltb_ge in Hpos.
      eexists. split; [reflexivity|]. cbn. split; [reflexivity|].
      split; [|split].
      * intros p' [= <-] Hlt. exfalso. lra.
      * discriminate.
      * reflexivity.
  - eexists. split; [reflexivity|]. cbn. split; [reflexivity|].
    split; [|split]; [discriminate | reflexivity | discriminate].
Qed.

(** ** The size of a live position *)





(** ** Win rate *)

Lemma inject_Z_pos_nonzero (z : Z) : (0 < z)%Z -> Qeq_bool (inject_Z z) 0 = false.
Proof.
  intros Hz. apply not_true_iff_false. rewrite Qeq_bool_iff.
  unfold Qeq, inject_Z. cbn. lia.
Qed.

Lemma avg_trade_dollars_total (st : ledger) : exists q, avg_trade_dollars st = Ok q.
Proof.
  unfold avg_trade_dollars. destruct (0 <? trade_count st)%Z eqn:E; [|eauto].
  apply Z.ltb_lt in E. unfold py_div. rewrite (inject_Z_pos_nonzero _ E). eauto.
Qed.

Lemma win_rate_closed (st : ledger) :
  (0 < winning_trades st + losing_trades st)%Z ->
  win_rate st =
    Ok (inject_Z (winning_trades st)
        / inject_Z (winning_trades st + losing_trades st) * 100).
Proof.
  intros Hpos. unfold win_rate, py_div.
  rewrite (proj2 (Z.ltb_lt _ _) Hpos), (inject_Z_pos_nonzero _ Hpos). reflexivity.
Qed.

Lemma win_rate_none_closed (st : ledger) :
  (winning_trades st + losing_trades st <= 0)%Z -> win_rate st = Ok 0.
Proof.
  intros Hz. unfold win_rate.
  rewrite (proj2 (Z.ltb_ge _ _) Hz). reflexivity.
Qed.

Lemma win_rate_total (st : ledger) : exists wr, win_rate st = Ok wr.
Proof.
  destruct (Z.lt_ge_cases 0 (winning_trades st + losing_trades st)) as [Hpos|Hz].
  - rewrite (win_rate_closed st Hpos). eauto.
  - rewrite (win_rate_none_closed st Hz). eauto.
Qed.

(** Building the metrics never raises. *)
Lemma build_metrics_total (st : ledger) :
  exists avg wr,
    avg_trade_dollars st = Ok avg /\
    win_rate st = Ok wr /\
    build_metrics st =
      Ok {| m_total_dollar_volume := py_round (total_dollar_volume st) 2;
            m_avg_trade_dollars := py_round avg 2;
            m_realized_pnl := py_round (realized_pnl st) 2;
            m_win_rate := py_round wr 2;
            m_winning_trades := winning_trades st;
            m_losing_trades := losing_trades st;
            m_total_trades := trade_count st |}.
Proof.
  destruct (avg_trade_dollars_total st) as (avg & Havg).
  destruct (win_rate_total st) as (wr & Hwr).
  exists avg, wr. unfold build_metrics. rewrite Havg, Hwr. auto.
Qed.


(** ** The exits of [fetch_user_trades_with_prices] *)

(** A failed request yields the all-zero metrics and no position. *)
Lemma fetch_trades_failed (e : exn) :
  fetch_user_trades_with_prices (FetchFailed e) = Pair zero_metrics ∅.
Proof. reflexivity. Qed.

(** An empty item list leaves through the early return: the metrics dict
    alone. *)
Lemma fetch_trades_empty (data items : json) :
  items_of data = Ok items ->
  truthy items = false ->
  fetch_user_trades_with_prices (Body data) = BareDict zero_metrics.
Proof.
  intros Hitems Hfalsy. unfold fetch_user_trades_with_prices. cbn [await_json mbind result_bind].
  rewrite Hitems. cbn [mbind result_bind]. rewrite Hfalsy. reflexivity.
Qed.

(** A completed loop over a non-empty list yields the rounded metrics and
    the position map. *)
Lemma fetch_trades_list (xs : list json) (st : ledger) :
  xs <> nil ->
  for_each loop_body initial_ledger xs = Ok st ->
  exists m,
    build_metrics st = Ok m /\
    fetch_user_trades_with_prices (Body (JArr xs)) = Pair m (positions st).
Proof.
  intros Hne Hrun.
  destruct (build_metrics_total st) as (avg & wr & _ & _ & Hm).
  eexists. split; [exact Hm|].
  unfold fetch_user_trades_with_prices. cbn [await_json items_of mbind result_bind].
  destruct xs as [|x xs]; [contradiction|].
  cbn [truthy negb py_iter mbind result_bind].
  rewrite Hrun. cbn [mbind result_bind]. rewrite Hm. reflexivity.
Qed.



Lemma fetch_positions_list (ys : list json) (ps : gmap key position) (acc : valuation) :
  for_each (live_body ps)
    {| position_value_dollars := 0; unrealized_pnl := 0 |} ys = Ok acc ->
  fetch_user_positions_dollars (Body (JArr ys)) ps =
    {| pm_position_value_dollars := py_round (position_value_dollars acc) 2;
       pm_unrealized_pnl := py_round (unrealized_pnl acc) 2 |}.
Proof.
  intros Hrun. unfold fetch_user_positions_dollars.
  cbn [await_json items_of py_iter mbind result_bind]. rewrite Hrun. reflexivity.
Qed.

(** ** Missing and malformed numeric fields *)






(** Every trade that is applied counts once and adds its dollar amount. *)
Lemma apply_trade_counts (st st' : ledger) (t : trade) :
  apply_trade st t = Ok st' ->
  trade_count st' = (trade_count st + 1)%Z /\
  total_dollar_volume st' = total_dollar_volume st + size t * price t.
Proof.
  unfold apply_trade. intros H.
  destruct (String.eqb (side t) "BUY").
  - destruct (key_of t) as [k|e] eqn:Hk.
    + rewrite (buy_spec _ t _ k Hk) in H. injection H as <-. cbn. auto.
    + unfold buy in H. unfold key_of in Hk. rewrite Hk in H. discriminate.
  - destruct (String.eqb (side t) "SELL").
    + unfold sell in H.
      unbind H as k Hk. cbn [positions] in H.
      destruct (positions st !! k) as [p|].
      * destruct (Qltb 0 (shares p)).
        -- unbind H as avg Havg. unbind H as p1 Hp1. unbind H as p2 Hp2.
           injection H as <-. cbn. auto.
        -- injection H as <-. cbn. auto.
      * injection H as <-. cbn. auto.
    + injection H as <-. cbn. auto.
Qed.


(** ** Total PnL *)

Lemma enhance_user_inv (net : api) (row : csv_row) (r : enhanced_row) :
  enhance_user net row = Ok r ->
  exists wallet m ps,
    row_get row "wallet" = Ok wallet /\
    fetch_user_trades_with_prices (get_trades net wallet) = Pair m ps /\
    row_realized_pnl r = m_realized_pnl m /\
    row_unrealized_pnl r =
      pm_unrealized_pnl (fetch_user_positions_dollars (get_positions net wallet) ps) /\
    row_total_pnl r = py_round (row_realized_pnl r + row_unrealized_pnl r) 2.
Proof.
  unfold enhance_user. intros H.
  unbind H as wallet Hw. unbind H as mp Hu. destruct mp as (m & ps).
  injection H as <-. cbn.
  exists wallet, m, ps. split; [exact Hw|].
  destruct (fetch_user_trades_with_prices (get_trades net wallet)); [discriminate|].
  injection Hu as <- <-. auto.
Qed.

(** C8, as amended.  [total_pnl] is the sum of the realized and the
    unrealized PnL as the two metrics dicts report them, that is, each
    already rounded to two decimals, and the sum rounded once more. *)
Theorem total_pnl_sums_rounded_parts (net : api) (row : csv_row) (r : enhanced_row) :
  enhance_user net row = Ok r ->
  row_total_pnl r = py_round (row_realized_pnl r + row_unrealized_pnl r) 2 /\
  (forall wallet xs st,
     row_get row "wallet" = Ok wallet ->
     get_trades net wallet = Body (JArr xs) ->
     xs <> nil ->
     for_each loop_body initial_ledger xs = Ok st ->
     row_realized_pnl r = py_round (realized_pnl st) 2 /\
     forall ys acc,
       get_positions net wallet = Body (JArr ys) ->
       for_each (live_body (positions st))
         {| position_value_dollars := 0; unrealized_pnl := 0 |} ys = Ok acc ->
       row_unrealized_pnl r = py_round (unrealized_pnl acc) 2 /\
       row_total_pnl r =
         py_round (py_round (realized_pnl st) 2 + py_round (unrealized_pnl acc) 2) 2).
Proof.
  intros H.
  destruct (enhance_user_inv _ _ _ H) as (w & m & ps & Hw & Hfetch & Hr & Hu & Ht).
  split; [exact Ht|].
  intros wallet xs st Hw' Htrades Hne Hrun.
  rewrite Hw in Hw'. injection Hw' as <-.
  rewrite Htrades in Hfetch.
  destruct (fetch_trades_list xs st Hne Hrun) as (m' & Hm' & Hfetch').
  rewrite Hfetch' in Hfetch. injection Hfetch as <- <-.
  destruct (build_metrics_total st) as (avg & wr & _ & _ & Hm).
  rewrite Hm in Hm'. injection Hm' as <-.
  split; [rewrite Hr; reflexivity|].
  intros ys acc Hpos Hlive.
  rewrite Hpos, (fetch_positions_list ys _ acc Hlive) in Hu. cbn in Hu.
  split; [exact Hu|].
  rewrite Ht, Hr, Hu. reflexivity.
Qed.

(** ** The early return on an empty trade list *)

Lemma enhance_user_bare_dict (net : api) (row : csv_row) (wallet : string) (m : metrics) :
  row_get row "wallet" = Ok wallet ->
  fetch_user_trades_with_prices (get_trades net wallet) = BareDict m ->
  enhance_user net row = Raise ValueError.
Proof.
  intros Hw Hfetch. unfold enhance_user. rewrite Hw. cbn [mbind result_bind].
  rewrite Hfetch. reflexivity.
Qed.

Lemma enhance_user_fetch_failed (net : api) (row : csv_row) (wallet : string) (e : exn) :
  row_get row "wallet" = Ok wallet ->
  get_trades net wallet = FetchFailed e ->
  exists r,
    enhance_user net row = Ok r /\
    row_total_dollar_volume r = 0 /\
    row_avg_trade_dollars r = 0 /\
    row_realized_pnl r = 0 /\
    row_win_rate_percent r = 0 /\
    row_winning_trades r = 0%Z /\
    row_losing_trades r = 0%Z.
Proof.
  intros Hw Hfetch. unfold enhance_user. rewrite Hw. cbn [mbind result_bind].
  rewrite Hfetch, fetch_trades_failed. cbn [unpack_pair mbind result_bind].
  eexists. split; [reflexivity|]. cbn. repeat split.
Qed.

(** The batch loop stops at the first wallet whose enhancement raises. *)
Lemma main_stops (net : api) (acc : list enhanced_row)
    (before : list csv_row) (user : csv_row) (after : list csv_row) (e : exn) :
  Forall (fun u => is_ok (enhance_user net u) = true) before ->
  enhance_user net user = Raise e ->
  for_each (main_body net) acc (before ++ user :: after) = Raise e.
Proof.
  intros Hbefore Hraise. revert acc.
  induction Hbefore as [|u before Hu _ IH]; intros acc; cbn [app]; rewrite for_each_cons.
  - assert (Hb : main_body net acc user = Raise e)
      by (unfold main_body; rewrite Hraise; reflexivity).
    rewrite Hb. reflexivity.
  - destruct (enhance_user net u) as [r|e'] eqn:Hr; [|discriminate Hu].
    assert (Hb : main_body net acc u = Ok (acc ++ r :: nil)%list)
      by (unfold main_body; rewrite Hr; reflexivity).
    rewrite Hb. cbn [mbind result_bind]. apply IH.
Qed.

(** * Further properties *)

(** ** A trade touches one key *)

Lemma apply_trade_cases (st st' : ledger) (t : trade) :
  apply_trade st t = Ok st' ->
  positions st' = positions st \/
  exists k p, key_of t = Ok k /\
    (positions st' = <[k := p]> (positions st) \/ positions st' = delete k (positions st)).
Proof.
  unfold apply_trade. intros H.
  destruct (String.eqb (side t) "BUY").
  - destruct (key_of t) as [k|e] eqn:Hk.
    + rewrite (buy_spec _ t _ k Hk) in H. injection H as <-. cbn.
      right. eexists. eexists. split; [reflexivity|]. left. reflexivity.
    + unfold buy in H. unfold key_of in Hk. rewrite Hk in H. discriminate.
  - destruct (String.eqb (side t) "SELL"); [|injection H as <-; left; reflexivity].
    destruct (key_of t) as [k|e] eqn:Hk.
    + destruct (positions st !! k) as [p|] eqn:Hp.
      * destruct (Qlt_le_dec 0 (shares p)) as [Hpos|Hle].
        -- match type of H with
           | sell ?s _ _ = _ => rewrite (sell_matched s t _ k p Hk Hp Hpos) in H
           end.
           injection H as <-. cbn. right. exists k.
           destruct (Qltb 0 (shares p - size t)).
           ++ eexists. split; [reflexivity|]. left. reflexivity.
           ++ exists p. split; [reflexivity|]. right. reflexivity.
        -- match type of H with
           | sell ?s _ _ = _ => rewrite (sell_unmatched s t _ k Hk) in H
           end.
           ++ injection H as <-. left. reflexivity.
           ++ right. exists p. split; [exact Hp | exact Hle].
      * match type of H with
        | sell ?s _ _ = _ => rewrite (sell_unmatched s t _ k Hk) in H
        end.
        -- injection H as <-. left. reflexivity.
        -- left. exact Hp.
    + unfold sell in H. unfold key_of in Hk. rewrite Hk in H. discriminate.
Qed.

(** X1. A trade changes no position but the one under its own key: the
    entries of all other keys are the same before and after, whatever the
    side of the trade. *)
Theorem trade_leaves_other_keys (st st' : ledger) (t : trade) (k' : key) :
  apply_trade st t = Ok st' ->
  key_of t <> Ok k' ->
  positions st' !! k' = positions st !! k'.
Proof.
  intros Hstep Hne.
  destruct (apply_trade_cases _ _ _ Hstep) as [-> | (k & p & Hk & [-> | ->])].
  - reflexivity.
  - apply lookup_insert_ne. congruence.
  - apply lookup_delete_ne. congruence.
Qed.

(** ** Counts and volume of a completed run *)

Lemma normalize_all_length (xs : list json) (ts : list trade) :
  normalize_all xs = Ok ts -> length ts = length xs.
Proof.
  revert ts. induction xs as [|x xs IH]; intros ts H.
  - injection H as <-. reflexivity.
  - rewrite normalize_all_cons in H. unbind H as t Ht. unbind H as ts' Hts.
    injection H as <-. cbn. rewrite (IH ts' Hts). reflexivity.
Qed.

Lemma run_trades_counts (ts : list trade) (st st' : ledger) :
  run_trades st ts = Ok st' ->
  trade_count st' = (trade_count st + Z.of_nat (length ts))%Z /\
  total_dollar_volume st' == total_dollar_volume st + dollar_amounts ts.
Proof.
  revert st. induction ts as [|t ts IH]; intros st H.
  - injection H as <-. unfold dollar_amounts, sum_Q. cbn. split; [lia | ring].
  - rewrite run_trades_cons in H. unbind H as st1 Hstep.
    destruct (apply_trade_counts _ _ _ Hstep) as (Hc & Hv).
    destruct (IH st1 H) as (Hc' & Hv').
    split.
    + rewrite Hc', Hc. cbn [length]. lia.
    + rewrite Hv', Hv. unfold dollar_amounts, sum_Q. cbn. ring.
Qed.

(** X2. When the loop over the items completes, every record was counted:
    the trade count is the number of records, the dollar volume is the sum
    of [size*price] over all of them, whatever their side, and the average
    trade size is the volume divided by the number of records. *)
Theorem completed_run_counts_every_record (xs : list json) (st : ledger) :
  for_each loop_body initial_ledger xs = Ok st ->
  exists ts,
    normalize_all xs = Ok ts /\
    trade_count st = Z.of_nat (length xs) /\
    total_dollar_volume st == dollar_amounts ts /\
    (xs <> nil ->
     avg_trade_dollars st
     = Ok (total_dollar_volume st / inject_Z (Z.of_nat (length xs)))).
Proof.
  intros H. apply loop_body_run_trades in H as (ts & Hn & Hrun).
  exists ts. split; [exact Hn|].
  destruct (run_trades_counts _ _ _ Hrun) as (Hc & Hv).
  rewrite (normalize_all_length _ _ Hn) in Hc.
  change (trade_count initial_ledger) with 0%Z in Hc. rewrite Z.add_0_l in Hc.
  split; [exact Hc|]. split; [rewrite Hv; cbn; ring|].
  intros Hne. unfold avg_trade_dollars. rewrite Hc.
  assert (Hpos : (0 < Z.of_nat (length xs))%Z).
  { destruct xs; [contradiction | cbn; lia]. }
  rewrite (proj2 (Z.ltb_lt _ _) Hpos). unfold py_div.
  rewrite (inject_Z_pos_nonzero _ Hpos). reflexivity.
Qed.

(** ** The two counters *)

Lemma apply_trade_counters (st st' : ledger) (t : trade) :
  apply_trade st t = Ok st' ->
  (winning_trades st <= winning_trades st')%Z /\
  (losing_trades st <= losing_trades st')%Z /\
  (winning_trades st' + losing_trades st'
   <= winning_trades st + losing_trades st
      + (if String.eqb (side t) "SELL" then 1 else 0))%Z.
Proof.
  unfold apply_trade. intros H.
  destruct (String.eqb (side t) "BUY") eqn:Eb.
  - assert (Es : String.eqb (side t) "SELL" = false).
    { apply String.eqb_eq in Eb. rewrite Eb. reflexivity. }
    rewrite Es.
    destruct (key_of t) as [k|e] eqn:Hk.
    + rewrite (buy_spec _ t _ k Hk) in H. injection H as <-. cbn. lia.
    + unfold buy in H. unfold key_of in Hk. rewrite Hk in H. discriminate.
  - destruct (String.eqb (side t) "SELL"); [|injection H as <-; cbn; lia].
    destruct (key_of t) as [k|e] eqn:Hk.
    + destruct (positions st !! k) as [p|] eqn:Hp.
      * destruct (Qlt_le_dec 0 (shares p)) as [Hpos|Hle].
        -- match type of H with
           | sell ?s _ _ = _ => rewrite (sell_matched s t _ k p Hk Hp Hpos) in H
           end.
           injection H as <-. cbn.
           destruct (Qltb 0 _); [lia|]. destruct (Qltb _ 0); lia.
        -- match type of H with
           | sell ?s _ _ = _ => rewrite (sell_unmatched s t _ k Hk) in H
           end.
           ++ injection H as <-. cbn. lia.
           ++ right. exists p. split; [exact Hp | exact Hle].
      * match type of H with
        | sell ?s _ _ = _ => rewrite (sell_unmatched s t _ k Hk) in H
        end.
        -- injection H as <-. cbn. lia.
        -- left. exact Hp.
    + unfold sell in H. unfold key_of in Hk. rewrite Hk in H. discriminate.
Qed.

Lemma run_trades_counters (ts : list trade) (st st' : ledger) :
  run_trades st ts = Ok st' ->
  (winning_trades st <= winning_trades st')%Z /\
  (losing_trades st <= losing_trades st')%Z /\
  (winning_trades st' + losing_trades st'
   <= winning_trades st + losing_trades st + sell_count ts)%Z.
Proof.
  revert st. induction ts as [|t ts IH]; intros st H.
  - injection H as <-. unfold sell_count. cbn. lia.
  - rewrite run_trades_cons in H. unbind H as st1 Hstep.
    destruct (apply_trade_counters _ _ _ Hstep) as (Hw & Hl & Hs).
    destruct (IH st1 H) as (Hw' & Hl' & Hs').
    unfold sell_count in *. cbn [List.filter].
    destruct (String.eqb (side t) "SELL"); cbn [length] in *; lia.
Qed.

Lemma win_rate_range (st : ledger) (wr : Q) :
  (0 <= winning_trades st)%Z ->
  (0 <= losing_trades st)%Z ->
  win_rate st = Ok wr ->
  0 <= wr /\ wr <= 100.
Proof.
  intros Hw Hl Hwr.
  destruct (Z.lt_ge_cases 0 (winning_trades st + losing_trades st)) as [Hpos|Hz].
  - rewrite (win_rate_closed st Hpos) in Hwr. injection Hwr as <-.
    set (w := winning_trades st) in *. set (d := (w + losing_trades st)%Z) in *.
    assert (Hd : 0 < inject_Z d) by (unfold Qlt, inject_Z; cbn; lia).
    assert (Hw0 : 0 <= inject_Z w) by (unfold Qle, inject_Z; cbn; lia).
    assert (Hwd : inject_Z w <= inject_Z d) by (unfold Qle, inject_Z; cbn; lia).
    split.
    + apply Qmult_le_0_compat; [|discriminate].
      apply Qle_shift_div_l; [exact Hd|]. lra.
    + assert (H1 : inject_Z w / inject_Z d <= 1).
      { apply Qle_shift_div_r; [exact Hd|]. lra. }
      lra.
  - rewrite (win_rate_none_closed st Hz) in Hwr. injection Hwr as <-.
    split; discriminate.
Qed.

(** X3. After any completed run the number of winning plus losing trades is
    at most the number of SELL records, hence at most the trade count, and
    the win rate lies between 0 and 100. *)
Theorem win_rate_between_0_and_100 (xs : list json) (st : ledger) :
  for_each loop_body initial_ledger xs = Ok st ->
  exists ts wr,
    normalize_all xs = Ok ts /\
    (0 <= winning_trades st)%Z /\
    (0 <= losing_trades st)%Z /\
    (winning_trades st + losing_trades st <= sell_count ts)%Z /\
    (sell_count ts <= trade_count st)%Z /\
    win_rate st = Ok wr /\
    0 <= wr /\ wr <= 100.
Proof.
  intros H. apply loop_body_run_trades in H as (ts & Hn & Hrun).
  destruct (run_trades_counters _ _ _ Hrun) as (Hw & Hl & Hs).
  destruct (run_trades_counts _ _ _ Hrun) as (Hc & _).
  destruct (win_rate_total st) as (wr & Hwr).
  cbn in Hw, Hl, Hs, Hc.
  exists ts, wr. split; [exact Hn|]. split; [exact Hw|]. split; [exact Hl|].
  split; [lia|]. split.
  - rewrite Hc. unfold sell_count. apply inj_le. apply filter_length_le.
  - split; [exact Hwr|]. exact (win_rate_range st wr Hw Hl Hwr).
Qed.

(** ** Winning and losing sells *)

(** X4. A matched SELL of a positive size is a winning trade exactly when
    its price is above the position's average cost, a losing trade exactly
    when its price is below, and neither when the two are equal. *)
Theorem sell_classified_by_price (st : ledger) (t : trade) (k : key) (p : position) :
  side t = "SELL" ->
  key_of t = Ok k ->
  positions st !! k = Some p ->
  0 < shares p ->
  0 < size t ->
  exists st',
    apply_trade st t = Ok st' /\
    (cost_basis p / shares p < price t ->
       winning_trades st' = (winning_trades st + 1)%Z /\
       losing_trades st' = losing_trades st) /\
    (price t < cost_basis p / shares p ->
       winning_trades st' = winning_trades st /\
       losing_trades st' = (losing_trades st + 1)%Z) /\
    (price t == cost_basis p / shares p ->
       winning_trades st' = winning_trades st /\
       losing_trades st' = losing_trades st).
Proof.
  intros Hside Hkey Hk Hpos Hsize.
  rewrite (apply_trade_sell _ _ Hside).
  match goal with
  | |- context [sell ?s _ _] => rewrite (sell_matched s t _ k p Hkey Hk Hpos)
  end.
  eexists. split; [reflexivity|]. cbn.
  set (avg := cost_basis p / shares p).
  split; [|split].
  - intros Hgt.
    assert (Hpnl : 0 < size t * price t - avg * size t) by nra.
    rewrite (proj2 (Qltb_lt _ _) Hpnl). split; reflexivity.
  - intros Hlt.
    assert (Hpnl : size t * price t - avg * size t < 0) by nra.
    assert (Hnw : size t * price t - avg * size t <= 0) by lra.
    rewrite (proj2 (Qltb_ge _ _) Hnw), (proj2 (Qltb_lt _ _) Hpnl). split; reflexivity.
  - intros Heq.
    assert (Hz : size t * price t - avg * size t == 0) by (rewrite Heq; ring).
    assert (Hnw : size t * price t - avg * size t <= 0) by lra.
    assert (Hnl : 0 <= size t * price t - avg * size t) by lra.
    rewrite (proj2 (Qltb_ge _ _) Hnw), (proj2 (Qltb_ge _ _) Hnl). split; reflexivity.
Qed.

(** ** The average cost stays within the purchase prices *)




(** ** Realized PnL against cash paid and received *)








(** ** Rounding respects equality of rationals *)

Lemma round_half_even_compat (x y : Q) :
  x == y -> round_half_even x = round_half_even y.
Proof.
  intros E. unfold round_half_even.
  rewrite (Qfloor_comp x y E).
  assert (Hc : Qcompare (x - inject_Z (Qfloor y)) (1 # 2)
               = Qcompare (y - inject_Z (Qfloor y)) (1 # 2)).
  { apply Qcompare_comp; [rewrite E|]; reflexivity. }
  rewrite Hc. reflexivity.
Qed.

Lemma py_round_compat (x y : Q) (n : Z) : x == y -> py_round x n = py_round y n.
Proof.
  intros E. unfold py_round.
  rewrite (round_half_even_compat (x * pow10 n) (y * pow10 n)); [reflexivity|].
  rewrite E. reflexivity.
Qed.

(** ** The loop over the live positions *)

(** A readable record is processed: it adds its value, and adds unrealized
    PnL only through a matching open position. *)
Lemma live_body_readable (ps : gmap key position) (acc : valuation) (item : json) :
  live_readable item = true ->
  exists acc',
    live_body ps acc item = Ok acc' /\
    position_value_dollars acc' = position_value_dollars acc + live_value item /\
    (ps = ∅ -> unrealized_pnl acc' = unrealized_pnl acc).
Proof.
  unfold live_readable, live_value, live_body, live_key. intros H.
  apply andb_true_iff in H as (H & Hk). apply andb_true_iff in H as (Hs & Hp).
  destruct (live_size item) as [sz|]; [|discriminate].
  destruct (float_or_zero item "price") as [pr|]; [|discriminate].
  cbn [mbind result_bind catch mret result_ret].
  destruct (item_key item) as [raw|]; [|discriminate].
  cbn [mbind result_bind] in *.
  destruct (hash_key raw) as [k|]; [|discriminate].
  cbn [mbind result_bind].
  destruct (ps !! k) as [p|] eqn:Hlook.
  - destruct (Qltb 0 (shares p)) eqn:Hpos.
    + apply Qltb_lt in Hpos. rewrite (py_div_pos _ _ Hpos).
      eexists. split; [reflexivity|]. cbn. split; [reflexivity|].
      intros ->. rewrite lookup_empty in Hlook. discriminate.
    + eexists. split; [reflexivity|]. cbn. split; reflexivity.
  - eexists. split; [reflexivity|]. cbn. split; reflexivity.
Qed.

Lemma live_body_unreadable (ps : gmap key position) (acc : valuation) (item : json) :
  live_readable item = false ->
  is_ok (live_body ps acc item) = false.
Proof.
  unfold live_readable, live_body, live_key. intros H.
  destruct (live_size item) as [sz|]; [|reflexivity].
  destruct (float_or_zero item "price") as [pr|]; [|reflexivity].
  cbn [mbind result_bind].
  destruct (item_key item) as [raw|]; [|reflexivity].
  cbn [mbind result_bind] in *.
  destruct (hash_key raw) as [k|]; [discriminate | reflexivity].
Qed.

Lemma live_loop_readable (ps : gmap key position) (ys : list json) (acc : valuation) :
  Forall (fun item => live_readable item = true) ys ->
  exists acc',
    for_each (live_body ps) acc ys = Ok acc' /\
    position_value_dollars acc'
    == position_value_dollars acc + sum_Q (map live_value ys) /\
    (ps = ∅ -> unrealized_pnl acc' = unrealized_pnl acc).
Proof.
  intros Hall. revert acc.
  induction Hall as [|y ys Hy _ IH]; intros acc.
  - exists acc. split; [reflexivity|]. unfold sum_Q. cbn. split; [ring | reflexivity].
  - destruct (live_body_readable ps acc y Hy) as (acc1 & Hstep & Hv & Hu).
    destruct (IH acc1) as (acc' & Hrun & Hv' & Hu').
    exists acc'. rewrite for_each_cons, Hstep. split; [exact Hrun|]. split.
    + rewrite Hv', Hv. unfold sum_Q. cbn. ring.
    + intros He. rewrite (Hu' He). exact (Hu He).
Qed.


(** X7. When every live record can be read, the reported position value is
    the sum of [size*price] over the records, rounded to two decimals,
    whatever the open positions are. *)
Theorem position_value_is_rounded_sum (ys : list json) (ps : gmap key position) :
  Forall (fun item => live_readable item = true) ys ->
  pm_position_value_dollars (fetch_user_positions_dollars (Body (JArr ys)) ps)
  = py_round (sum_Q (map live_value ys)) 2.
Proof.
  intros Hall.
  destruct (live_loop_readable ps ys no_valuation Hall) as (acc & Hrun & Hv & _).
  rewrite (fetch_positions_list ys ps acc Hrun). cbn [pm_position_value_dollars].
  apply py_round_compat. rewrite Hv. cbn. ring.
Qed.


Lemma live_loop_no_positions (ys : list json) (acc acc' : valuation) :
  for_each (live_body ∅) acc ys = Ok acc' ->
  unrealized_pnl acc' = unrealized_pnl acc.
Proof.
  revert acc. induction ys as [|y ys IH]; intros acc H.
  - injection H as <-. reflexivity.
  - rewrite for_each_cons in H. unbind H as acc1 Hstep.
    rewrite (IH acc1 H).
    destruct (live_readable y) eqn:Hy.
    + destruct (live_body_readable ∅ acc y Hy) as (acc2 & Hstep' & _ & Hu).
      rewrite Hstep in Hstep'. injection Hstep' as <-. exact (Hu eq_refl).
    + pose proof (live_body_unreadable ∅ acc y Hy) as Hbad.
      rewrite Hstep in Hbad. discriminate Hbad.
Qed.

Lemma no_positions_no_unrealized (resp : response) :
  pm_unrealized_pnl (fetch_user_positions_dollars resp ∅) = 0.
Proof.
  unfold fetch_user_positions_dollars.
  destruct (await_json resp) as [data|]; [|reflexivity].
  cbn [mbind result_bind].
  destruct (items_of data) as [items|]; [|reflexivity].
  cbn [mbind result_bind].
  destruct (py_iter items) as [xs|]; [|reflexivity].
  cbn [mbind result_bind].
  destruct (for_each (live_body ∅) _ xs) as [acc|] eqn:Hrun; [|reflexivity].
  cbn. rewrite (live_loop_no_positions _ _ _ Hrun). reflexivity.
Qed.

(** X9. When the trade request fails, the wallet is still enhanced: every
    trade metric, the unrealized PnL and the total PnL are 0 whatever the
    positions endpoint answers, and the position value is the one the
    positions endpoint gives with no open position known. *)
Theorem failed_trade_fetch_gives_zero_pnl
    (net : api) (row : csv_row) (wallet : string) (e : exn) :
  row_get row "wallet" = Ok wallet ->
  get_trades net wallet = FetchFailed e ->
  exists r,
    enhance_user net row = Ok r /\
    row_total_dollar_volume r = 0 /\
    row_realized_pnl r = 0 /\
    row_win_rate_percent r = 0 /\
    row_unrealized_pnl r = 0 /\
    row_total_pnl r = 0 /\
    row_position_value_dollars r
    = pm_position_value_dollars
        (fetch_user_positions_dollars (get_positions net wallet) ∅).
Proof.
  intros Hw Hfetch. unfold enhance_user. rewrite Hw. cbn [mbind result_bind].
  rewrite Hfetch, fetch_trades_failed. cbn [unpack_pair mbind result_bind fst snd].
  eexists. split; [reflexivity|]. cbn.
  rewrite no_positions_no_unrealized. repeat split.
Qed.

(** ** The shapes of a response body *)

(** X10. A body [{"data": [...]}] is read exactly like the bare list, by both
    fetch functions; a dict without a [data] entry is read like an empty
    list; a body that is neither a list nor a dict gives the all-zero
    results without raising. *)
Theorem response_shapes (fields : list (string * json)) (ps : gmap key position) :
  (forall xs,
     assoc_get fields "data" = Some (JArr xs) ->
     fetch_user_trades_with_prices (Body (JObj fields))
       = fetch_user_trades_with_prices (Body (JArr xs)) /\
     fetch_user_positions_dollars (Body (JObj fields)) ps
       = fetch_user_positions_dollars (Body (JArr xs)) ps) /\
  (assoc_get fields "data" = None ->
     fetch_user_trades_with_prices (Body (JObj fields))
       = fetch_user_trades_with_prices (Body (JArr nil)) /\
     fetch_user_positions_dollars (Body (JObj fields)) ps
       = fetch_user_positions_dollars (Body (JArr nil)) ps) /\
  (forall data,
     scalar_body data ->
     fetch_user_trades_with_prices (Body data) = Pair zero_metrics ∅ /\
     fetch_user_positions_dollars (Body data) ps
       = {| pm_position_value_dollars := 0; pm_unrealized_pnl := 0 |}).
Proof.
  split; [|split].
  - intros xs Hdata.
    unfold fetch_user_trades_with_prices, fetch_user_positions_dollars.
    cbn [await_json items_of dict_get mbind result_bind]. rewrite Hdata.
    split; reflexivity.
  - intros Hdata.
    unfold fetch_user_trades_with_prices, fetch_user_positions_dollars.
    cbn [await_json items_of dict_get mbind result_bind]. rewrite Hdata.
    split; reflexivity.
  - intros data Hscalar. destruct data; try contradiction; split; reflexivity.
Qed.

(** ** The batch loop *)

Lemma main_body_inv (net : api) (acc rows : list enhanced_row) (user : csv_row) :
  main_body net acc user = Ok rows <->
  exists r, enhance_user net user = Ok r /\ rows = (acc ++ r :: nil)%list.
Proof.
  unfold main_body. destruct (enhance_user net user) as [r|e]; cbn.
  - split.
    + intros [= <-]. eauto.
    + intros (r' & [= <-] & ->). reflexivity.
  - split; [discriminate|]. intros (r' & H & _). discriminate.
Qed.

Lemma main_loop_inv (net : api) (users : list csv_row) (acc rows : list enhanced_row) :
  for_each (main_body net) acc users = Ok rows <->
  exists rs,
    rows = (acc ++ rs)%list /\
    Forall2 (fun user r => enhance_user net user = Ok r) users rs.
Proof.
  revert acc. induction users as [|u users IH]; intros acc.
  - cbn. split.
    + intros [= <-]. exists nil. rewrite app_nil_r. split; [reflexivity | constructor].
    + intros (rs & -> & H). inversion H. rewrite app_nil_r. reflexivity.
  - rewrite for_each_cons. split.
    + intros H. unbind H as acc1 Hstep.
      apply main_body_inv in Hstep as (r & Hr & ->).
      apply IH in H as (rs & -> & Hrs).
      exists (r :: rs). rewrite <- app_assoc. split; [reflexivity|].
      constructor; assumption.
    + intros (rs & -> & H). inversion H as [|? r ? rs' Hr Hrs]; subst.
      assert (Hb : main_body net acc u = Ok (acc ++ r :: nil)%list)
        by (apply main_body_inv; eauto).
      rewrite Hb. cbn [mbind result_bind]. apply IH.
      exists rs'. rewrite <- app_assoc. split; [reflexivity | exact Hrs].
Qed.

Lemma enhance_user_base (net : api) (row : csv_row) (r : enhanced_row) :
  enhance_user net row = Ok r -> row_base r = row.
Proof.
  unfold enhance_user. intros H. unbind H as wallet Hw. unbind H as mp Hu.
  injection H as <-. reflexivity.
Qed.

(** X11. The batch loop returns a list exactly when every user is enhanced
    without an exception, and the list then holds one enhanced row per
    user, in the order of the users, each extending its own input row. *)
Theorem main_returns_one_row_per_user
    (net : api) (users : list csv_row) (rows : list enhanced_row) :
  main net users = Ok rows <->
  Forall2 (fun user r => enhance_user net user = Ok r /\ row_base r = user) users rows.
Proof.
  unfold main. rewrite main_loop_inv. split.
  - intros (rs & -> & H). cbn [app].
    induction H as [|u r us rs Hr _ IH]; constructor; [|exact IH].
    split; [exact Hr | exact (enhance_user_base _ _ _ Hr)].
  - intros H. exists rows. split; [reflexivity|].
    induction H as [|u r us rs (Hr & _) _ IH]; constructor; assumption.
Qed.

(** ** What [enhance_user] can raise *)




(** ** Records of another side *)

Lemma apply_trade_with_totals (v : Q) (c : Z) (st : ledger) (t : trade) :
  apply_trade (with_totals v c st) t =
    (st' ← apply_trade st t;
     mret (with_totals (v + size t * price t) (c + 1) st')).
Proof.
  unfold apply_trade, buy, sell, set_positions, with_totals, subscript.
  cbn [positions realized_pnl winning_trades losing_trades total_dollar_volume trade_count].
  destruct (String.eqb (side t) "BUY").
  - destruct (hash_key (market_id t, outcome t)) as [k|]; [|reflexivity].
    cbn [mbind result_bind].
    destruct (positions st !! k) as [p|] eqn:Hp;
      rewrite ?Hp;
      repeat (progress (cbn [mbind result_bind]; rewrite ?lookup_insert_eq));
      reflexivity.
  - destruct (String.eqb (side t) "SELL"); [|reflexivity].
    destruct (hash_key (market_id t, outcome t)) as [k|]; [|reflexivity].
    cbn [mbind result_bind].
    destruct (positions st !! k) as [p|] eqn:Hp; [|reflexivity].
    destruct (Qltb 0 (shares p)); [|reflexivity].
    destruct (py_div (cost_basis p) (shares p)) as [avg|]; [|reflexivity].
    repeat (progress (cbn [mbind result_bind]; rewrite ?Hp, ?lookup_insert_eq)).
    reflexivity.
Qed.

Lemma same_book_with_totals (st1 st2 : ledger) :
  same_book st1 st2 ->
  st2 = with_totals (total_dollar_volume st2) (trade_count st2) st1.
Proof.
  destruct st1, st2. unfold same_book, with_totals. cbn.
  intros (-> & -> & -> & ->). reflexivity.
Qed.

Lemma apply_trade_same_book (st1 st2 st1' : ledger) (t : trade) :
  same_book st1 st2 ->
  apply_trade st1 t = Ok st1' ->
  exists st2', apply_trade st2 t = Ok st2' /\ same_book st1' st2'.
Proof.
  intros Hsame Hstep. rewrite (same_book_with_totals _ _ Hsame).
  rewrite apply_trade_with_totals, Hstep. cbn [mbind result_bind mret result_ret].
  eexists. split; [reflexivity|]. unfold same_book, with_totals. cbn. auto.
Qed.

Lemma apply_trade_other_side (st st' : ledger) (t : trade) :
  buy_or_sell t = false ->
  apply_trade st t = Ok st' ->
  same_book st' st.
Proof.
  unfold buy_or_sell, apply_trade. intros H Hstep.
  apply orb_false_iff in H as (Hb & Hs). rewrite Hb, Hs in Hstep.
  injection Hstep as <-. unfold same_book. cbn. auto.
Qed.

Lemma run_trades_without_other_sides (ts : list trade) (st1 st2 st1' : ledger) :
  same_book st1 st2 ->
  run_trades st1 ts = Ok st1' ->
  exists st2',
    run_trades st2 (List.filter buy_or_sell ts) = Ok st2' /\ same_book st1' st2'.
Proof.
  revert st1 st2. induction ts as [|t ts IH]; intros st1 st2 Hsame Hrun.
  - injection Hrun as <-. exists st2. split; [reflexivity | exact Hsame].
  - rewrite run_trades_cons in Hrun. unbind Hrun as st1a Hstep.
    cbn [List.filter]. destruct (buy_or_sell t) eqn:Hside.
    + destruct (apply_trade_same_book _ _ _ _ Hsame Hstep) as (st2a & Hstep2 & Hsame2).
      destruct (IH _ _ Hsame2 Hrun) as (st2' & Hrun2 & Hfinal).
      exists st2'. rewrite run_trades_cons, Hstep2. split; [exact Hrun2 | exact Hfinal].
    + pose proof (apply_trade_other_side _ _ _ Hside Hstep) as Hsame1.
      apply (IH st1a st2); [|exact Hrun].
      destruct Hsame1 as (H1 & H2 & H3 & H4), Hsame as (H5 & H6 & H7 & H8).
      unfold same_book. repeat split; congruence.
Qed.

(** X13. Records whose side is neither [BUY] nor [SELL] add to the trade
    count and the dollar volume only: a completed run ends with the same
    positions, realized PnL and win and loss counts as the run over its BUY
    and SELL records alone. *)
Theorem other_sides_leave_the_book_alone (ts : list trade) (st : ledger) :
  run_trades initial_ledger ts = Ok st ->
  exists st',
    run_trades initial_ledger (List.filter buy_or_sell ts) = Ok st' /\
    positions st' = positions st /\
    realized_pnl st' = realized_pnl st /\
    winning_trades st' = winning_trades st /\
    losing_trades st' = losing_trades st.
Proof.
  intros Hrun.
  destruct (run_trades_without_other_sides ts initial_ledger initial_ledger st)
    as (st' & Hrun' & (H1 & H2 & H3 & H4)).
  - unfold same_book. auto.
  - exact Hrun.
  - exists st'. split; [exact Hrun'|]. auto.
Qed.

(** ** The letter case of the side *)

Lemma dict_get_agree (fields1 fields2 : list (string * json)) (k : string) (d : json) :
  assoc_get fields1 k = assoc_get fields2 k ->
  dict_get (JObj fields1) k d = dict_get (JObj fields2) k d.
Proof. unfold dict_get. intros ->. reflexivity. Qed.

(** X14. The side is compared without regard to letter case: two records
    that agree on every field but [side], and whose sides are the same word
    up to case, are processed identically from every ledger state. *)
Theorem side_letter_case_is_ignored
    (fields1 fields2 : list (string * json)) (s1 s2 : string) (st : ledger) :
  (forall k, k <> "side" -> assoc_get fields1 k = assoc_get fields2 k) ->
  assoc_get fields1 "side" = Some (JStr s1) ->
  assoc_get fields2 "side" = Some (JStr s2) ->
  upper_string s1 = upper_string s2 ->
  loop_body st (JObj fields1) = loop_body st (JObj fields2).
Proof.
  intros Hsame H1 H2 Hup.
  assert (Hget : forall k d, k <> "side" ->
            dict_get (JObj fields1) k d = dict_get (JObj fields2) k d).
  { intros k d Hk. apply dict_get_agree. exact (Hsame k Hk). }
  assert (Hn : normalize (JObj fields1) = normalize (JObj fields2)).
  { assert (Hs1 : dict_get (JObj fields1) "side" (JStr "") = Ok (JStr s1))
      by (unfold dict_get; rewrite H1; reflexivity).
    assert (Hs2 : dict_get (JObj fields2) "side" (JStr "") = Ok (JStr s2))
      by (unfold dict_get; rewrite H2; reflexivity).
    unfold normalize, float_or_zero, item_key.
    rewrite Hs1, Hs2.
    rewrite !(Hget "size"), !(Hget "price"), !(Hget "market"),
      !(Hget "marketId"), !(Hget "outcome") by discriminate.
    cbn [py_upper mbind result_bind]. rewrite Hup. reflexivity. }
  unfold loop_body. rewrite Hn. reflexivity.
Qed.

(** ** The market identifier *)

Lemma item_key_unfold (fields : list (string * json)) :
  item_key (JObj fields) =
    Ok (if truthy (get_or fields "market" JNull) then get_or fields "market" JNull
        else get_or fields "marketId" (JStr ""),
        get_or fields "outcome" (JStr "")).
Proof.
  unfold item_key, dict_get, or_else.
  fold (get_or fields "market" JNull). fold (get_or fields "marketId" (JStr "")).
  fold (get_or fields "outcome" (JStr "")). cbn [mbind result_bind].
  destruct (truthy (get_or fields "market" JNull)); reflexivity.
Qed.

(** X15. The market of a record is its [market] field when that is truthy,
    else its [marketId] field, else the empty string.  Records that carry
    neither identifier are all keyed by the empty string: with the same
    outcome they share one position. *)
Theorem market_falls_back_to_marketId (fields : list (string * json)) :
  (forall v,
     assoc_get fields "market" = Some v -> truthy v = true ->
     item_key (JObj fields) = Ok (v, get_or fields "outcome" (JStr ""))) /\
  (absent_or_falsy fields "market" ->
     item_key (JObj fields)
       = Ok (get_or fields "marketId" (JStr ""), get_or fields "outcome" (JStr ""))) /\
  (forall fields',
     absent_or_falsy fields "market" -> assoc_get fields "marketId" = None ->
     absent_or_falsy fields' "market" -> assoc_get fields' "marketId" = None ->
     assoc_get fields "outcome" = assoc_get fields' "outcome" ->
     item_key (JObj fields) = item_key (JObj fields') /\
     exists o, item_key (JObj fields) = Ok (JStr "", o)).
Proof.
  assert (Hfalsy : forall f, absent_or_falsy f "market" ->
            truthy (get_or f "market" JNull) = false).
  { intros f. unfold absent_or_falsy, get_or.
    destruct (assoc_get f "market"); [trivial | reflexivity]. }
  split; [|split].
  - intros v Hv Ht. rewrite item_key_unfold. unfold get_or at 1 2.
    rewrite Hv, Ht. reflexivity.
  - intros Hm. rewrite item_key_unfold, (Hfalsy _ Hm). reflexivity.
  - intros fields' Hm Hid Hm' Hid' Hout.
    rewrite !item_key_unfold, (Hfalsy _ Hm), (Hfalsy _ Hm').
    unfold get_or. rewrite Hid, Hid', Hout. split; [reflexivity | eauto].
Qed.

(** ** How far rounding moves the total *)

Lemma round_half_even_close (x : Q) :
  - (1 # 2) <= inject_Z (round_half_even x) - x /\
  inject_Z (round_half_even x) - x <= 1 # 2.
Proof.
  unfold round_half_even.
  pose proof (Qfloor_le x) as Hlo. pose proof (Qlt_floor x) as Hhi.
  rewrite inject_Z_plus in Hhi.
  assert (H1 : inject_Z 1 == 1) by reflexivity. rewrite H1 in Hhi.
  destruct (Qcompare (x - inject_Z (Qfloor x)) (1 # 2)) eqn:Hc.
  - apply Qeq_alt in Hc.
    destruct (Z.even (Qfloor x)); rewrite ?inject_Z_plus, ?H1; split; lra.
  - apply Qlt_alt in Hc. split; lra.
  - apply Qgt_alt in Hc. rewrite inject_Z_plus, H1. split; lra.
Qed.

(** Rounding to two decimals moves a value by half a cent at most. *)
Lemma py_round_close (x : Q) :
  - (1 # 200) <= py_round x 2 - x /\ py_round x 2 - x <= 1 # 200.
Proof.
  unfold py_round. rewrite Qred_correct.
  assert (Hp : pow10 2 == 100) by reflexivity.
  destruct (round_half_even_close (x * pow10 2)) as (Hlo & Hhi).
  set (n := inject_Z (round_half_even (x * pow10 2))) in *.
  rewrite Hp in Hlo, Hhi |- *.
  assert (Hd : n / 100 == n * (1 # 100)) by (unfold Qdiv; reflexivity).
  rewrite Hd. split; lra.
Qed.

Lemma enhance_user_total (net : api) (row : csv_row) (r : enhanced_row)
    (wallet : string) (xs ys : list json) (st : ledger) (acc : valuation) :
  enhance_user net row = Ok r ->
  row_get row "wallet" = Ok wallet ->
  get_trades net wallet = Body (JArr xs) ->
  xs <> nil ->
  for_each loop_body initial_ledger xs = Ok st ->
  get_positions net wallet = Body (JArr ys) ->
  for_each (live_body (positions st)) no_valuation ys = Ok acc ->
  row_realized_pnl r = py_round (realized_pnl st) 2 /\
  row_unrealized_pnl r = py_round (unrealized_pnl acc) 2 /\
  row_position_value_dollars r = py_round (position_value_dollars acc) 2 /\
  row_total_pnl r
  = py_round (py_round (realized_pnl st) 2 + py_round (unrealized_pnl acc) 2) 2.
Proof.
  intros H Hw Htrades Hne Hrun Hpos Hlive.
  unfold enhance_user in H. rewrite Hw in H. cbn [mbind result_bind] in H.
  rewrite Htrades in H.
  destruct (fetch_trades_list xs st Hne Hrun) as (m & Hm & Hfetch).
  rewrite Hfetch in H. cbn [unpack_pair mbind result_bind fst snd] in H.
  rewrite Hpos, (fetch_positions_list ys _ acc Hlive) in H.
  destruct (build_metrics_total st) as (avg & wr & _ & _ & Hm').
  rewrite Hm' in Hm. injection Hm as <-.
  injection H as <-. cbn. auto.
Qed.

(** X16. The reported realized and unrealized PnL are each within half a
    cent of the value the loops computed, and the reported total PnL is
    within one and a half cents of the unrounded sum of the two. *)
Theorem total_pnl_within_a_cent_and_a_half
    (net : api) (row : csv_row) (r : enhanced_row)
    (wallet : string) (xs ys : list json) (st : ledger) (acc : valuation) :
  enhance_user net row = Ok r ->
  row_get row "wallet" = Ok wallet ->
  get_trades net wallet = Body (JArr xs) ->
  xs <> nil ->
  for_each loop_body initial_ledger xs = Ok st ->
  get_positions net wallet = Body (JArr ys) ->
  for_each (live_body (positions st)) no_valuation ys = Ok acc ->
  (- (1 # 200) <= row_realized_pnl r - realized_pnl st /\
   row_realized_pnl r - realized_pnl st <= 1 # 200) /\
  (- (1 # 200) <= row_unrealized_pnl r - unrealized_pnl acc /\
   row_unrealized_pnl r - unrealized_pnl acc <= 1 # 200) /\
  (- (3 # 200) <= row_total_pnl r - (realized_pnl st + unrealized_pnl acc) /\
   row_total_pnl r - (realized_pnl st + unrealized_pnl acc) <= 3 # 200).
Proof.
  intros H Hw Htrades Hne Hrun Hpos Hlive.
  destruct (enhance_user_total net row r wallet xs ys st acc
              H Hw Htrades Hne Hrun Hpos Hlive) as (Hr & Hu & _ & Ht).
  rewrite Hr, Hu, Ht.
  destruct (py_round_close (realized_pnl st)) as (R1 & R2).
  destruct (py_round_close (unrealized_pnl acc)) as (U1 & U2).
  destruct (py_round_close
              (py_round (realized_pnl st) 2 + py_round (unrealized_pnl acc) 2))
    as (T1 & T2).
  repeat split; lra.
Qed.

(** ** Closing a position and buying again *)

(** X17. After a SELL that closes a position (it sells at least the shares
    held), a BUY on the same key opens a fresh position: its shares and
    cost basis are those of the new purchase alone, whatever the closed
    position had cost. *)
Theorem rebuy_after_close_starts_fresh
    (st : ledger) (s b : trade) (k : key) (p : position) :
  side s = "SELL" ->
  side b = "BUY" ->
  key_of s = Ok k ->
  key_of b = Ok k ->
  positions st !! k = Some p ->
  0 < shares p ->
  shares p <= size s ->
  exists st',
    run_trades st (s :: b :: nil) = Ok st' /\
    positions st' !! k
    = Some {| shares := 0 + size b; cost_basis := 0 + size b * price b |} /\
    realized_pnl st'
    = realized_pnl st + (size s * price s - cost_basis p / shares p * size s).
Proof.
  intros Hs Hb Hks Hkb Hp Hpos Hall.
  rewrite run_trades_cons, (apply_trade_sell _ _ Hs).
  match goal with
  | |- context [sell ?x _ _] => rewrite (sell_matched x s _ k p Hks Hp Hpos)
  end.
  assert (Hrem : Qltb 0 (shares p - size s) = false) by (apply Qltb_ge; lra).
  rewrite Hrem. cbn [mbind result_bind].
  rewrite run_trades_cons, (apply_trade_buy _ _ Hb).
  match goal with
  | |- context [buy ?x _ _] => rewrite (buy_spec x b _ k Hkb)
  end.
  cbn [positions mbind result_bind run_trades for_each].
  rewrite lookup_delete_eq.
  eexists. split; [reflexivity|]. cbn. rewrite lookup_insert_eq.
  split; reflexivity.
Qed.

(** ** Live size equal to the shares held *)

(** X18. When a live record reports exactly the shares the ledger holds under
    its key, its contribution to unrealized PnL is its market value minus
    the position's cost basis. *)
Theorem unrealized_is_value_minus_cost_basis
    (open_positions : gmap key position) (acc : valuation) (item : json)
    (sz pr : Q) (k : key) (p : position) :
  live_size item = Ok sz ->
  float_or_zero item "price" = Ok pr ->
  live_key item = Ok k ->
  open_positions !! k = Some p ->
  0 < shares p ->
  sz == shares p ->
  exists acc',
    live_body open_positions acc item = Ok acc' /\
    unrealized_pnl acc' == unrealized_pnl acc + (sz * pr - cost_basis p).
Proof.
  intros Hsz Hpr Hk Hp Hpos Hsame. unfold live_body, live_key in *.
  rewrite Hsz, Hpr. cbn [mbind result_bind].
  destruct (item_key item) as [raw|e]; [|discriminate].
  cbn [mbind result_bind] in *. rewrite Hk. cbn [mbind result_bind].
  rewrite Hp, (proj2 (Qltb_lt _ _) Hpos), (py_div_pos _ _ Hpos).
  eexists. split; [reflexivity|]. cbn.
  assert (Hcost : sz * (cost_basis p / shares p) == cost_basis p).
  { rewrite Hsame. field. intros E. rewrite E in Hpos. revert Hpos. apply Qlt_irrefl. }
  rewrite Hcost. reflexivity.
Qed.

(** * Worked examples *)

(** ** Witnesses *)

Lemma sell_matched_updates_ledger_witness :
  (exists st',
     apply_trade st_held (mk_trade "SELL" 5 3 "m1") = Ok st' /\
     realized_pnl st' == 15 # 2 /\
     positions st' !! k_m1
       = Some {| shares := 20 - 5; cost_basis := 30 / 20 * (20 - 5) |}) /\
  (exists st',
     apply_trade st_held (mk_trade "SELL" 20 1 "m1") = Ok st' /\
     realized_pnl st' == - 10 /\
     positions st' !! k_m1 = None).
Proof.
  split.
  - destruct (sell_matched_updates_ledger st_held (mk_trade "SELL" 5 3 "m1") k_m1
                {| shares := 20; cost_basis := 30 |})
      as (st' & Hstep & Hpnl & Hpart & _).
    + reflexivity.
    + reflexivity.
    + vm_compute. reflexivity.
    + reflexivity.
    + exists st'. split; [exact Hstep|]. split.
      * rewrite Hpnl. vm_compute. reflexivity.
      * destruct Hpart as (p' & Hp' & Hs & Hc & _); [reflexivity|].
        rewrite Hp'. destruct p' as [s c]. cbn in Hs, Hc. rewrite Hs, Hc. reflexivity.
  - destruct (sell_matched_updates_ledger st_held (mk_trade "SELL" 20 1 "m1") k_m1
                {| shares := 20; cost_basis := 30 |})
      as (st' & Hstep & Hpnl & _ & Hclose & _).
    + reflexivity.
    + reflexivity.
    + vm_compute. reflexivity.
    + reflexivity.
    + exists st'. split; [exact Hstep|]. split.
      * rewrite Hpnl. vm_compute. reflexivity.
      * apply Hclose. vm_compute. discriminate.
Defined.

Lemma all_buys_accumulate_witness :
  exists st,
    run_trades initial_ledger three_buys = Ok st /\
    realized_pnl st = 0 /\
    winning_trades st = 0%Z /\
    losing_trades st = 0%Z /\
    (exists p, positions st !! k_m1 = Some p /\ shares p == 20 /\ cost_basis p == 30) /\
    (exists p, positions st !! k_m2 = Some p /\ shares p == 4 /\ cost_basis p == 2).
Proof.
  destruct (all_buys_accumulate three_buys)
    as (st & Hrun & Hr & Hw & Hl & Hkeys & _).
  - repeat constructor.
  - repeat constructor.
  - exists st. repeat (split; [assumption|]). split.
    + destruct (Hkeys k_m1 (mk_trade "BUY" 10 1 "m1")) as (p & Hp & Hs & Hc).
      * left. reflexivity.
      * reflexivity.
      * exists p. split; [exact Hp|]. split; [rewrite Hs | rewrite Hc]; reflexivity.
    + destruct (Hkeys k_m2 (mk_trade "BUY" 4 (1 # 2) "m2")) as (p & Hp & Hs & Hc).
      * right. right. left. reflexivity.
      * reflexivity.
      * exists p. split; [exact Hp|]. split; [rewrite Hs | rewrite Hc]; reflexivity.
Defined.

Lemma open_positions_have_positive_shares_witness :
  exists st,
    run_trades initial_ledger (take 2 buy_close_buy) = Ok st /\
    all_open (positions st).
Proof.
  eexists. split; [reflexivity|].
  apply (open_positions_have_positive_shares buy_close_buy 2).
  - repeat constructor; intros H; first [reflexivity | discriminate H].
  - reflexivity.
Defined.

Lemma sell_unmatched_counts_volume_only_witness :
  exists st',
    apply_trade initial_ledger (mk_trade "SELL" 5 3 "m1") = Ok st' /\
    total_dollar_volume st' = 0 + 5 * 3 /\
    trade_count st' = 1%Z /\
    realized_pnl st' = 0 /\
    winning_trades st' = 0%Z /\
    losing_trades st' = 0%Z /\
    positions st' = ∅.
Proof.
  apply (sell_unmatched_counts_volume_only initial_ledger (mk_trade "SELL" 5 3 "m1") k_m1).
  - reflexivity.
  - reflexivity.
  - left. reflexivity.
Defined.

Lemma live_record_contribution_witness :
  exists acc',
    live_body {[ k_m2 := {| shares := 4; cost_basis := 2 |} ]}
      {| position_value_dollars := 0; unrealized_pnl := 0 |}
      (live_item (JNum 6) (JNum (3 # 4)) "m2") = Ok acc' /\
    position_value_dollars acc' == 9 # 2 /\
    unrealized_pnl acc' == 3 # 2.
Proof.
  destruct (live_record_contribution
              {[ k_m2 := {| shares := 4; cost_basis := 2 |} ]}
              {| position_value_dollars := 0; unrealized_pnl := 0 |}
              (live_item (JNum 6) (JNum (3 # 4)) "m2") 6 (3 # 4) k_m2)
    as (acc' & Hstep & Hvalue & Hmatched & _).
  - reflexivity.
  - reflexivity.
  - reflexivity.
  - exists acc'. split; [exact Hstep|]. split.
    + rewrite Hvalue. reflexivity.
    + rewrite (Hmatched {| shares := 4; cost_basis := 2 |}); reflexivity.
Defined.


Lemma total_pnl_sums_rounded_parts_witness :
  exists r st acc,
    enhance_user small_gain_net (row_of "0xA") = Ok r /\
    for_each loop_body initial_ledger small_gain_trades = Ok st /\
    for_each (live_body (positions st))
      {| position_value_dollars := 0; unrealized_pnl := 0 |} small_gain_live = Ok acc /\
    row_total_pnl r = py_round (row_realized_pnl r + row_unrealized_pnl r) 2 /\
    row_realized_pnl r = py_round (realized_pnl st) 2 /\
    row_unrealized_pnl r = py_round (unrealized_pnl acc) 2.
Proof.
  assert (Hok : is_ok (enhance_user small_gain_net (row_of "0xA")) = true)
    by (vm_compute; reflexivity).
  destruct (enhance_user small_gain_net (row_of "0xA")) as [r|e] eqn:Hrun;
    [|discriminate Hok].
  assert (Hst : is_ok (for_each loop_body initial_ledger small_gain_trades) = true)
    by (vm_compute; reflexivity).
  destruct (for_each loop_body initial_ledger small_gain_trades) as [st|e] eqn:Hloop;
    [|discriminate Hst].
  assert (Hacc : is_ok (st0 ← for_each loop_body initial_ledger small_gain_trades;
                        for_each (live_body (positions st0))
                          {| position_value_dollars := 0; unrealized_pnl := 0 |}
                          small_gain_live) = true)
    by (vm_compute; reflexivity).
  rewrite Hloop in Hacc. cbn [mbind result_bind] in Hacc.
  destruct (for_each (live_body (positions st))
              {| position_value_dollars := 0; unrealized_pnl := 0 |} small_gain_live)
    as [acc|e] eqn:Hlive; [|discriminate Hacc].
  destruct (total_pnl_sums_rounded_parts small_gain_net (row_of "0xA") r Hrun)
    as (Htotal & Hparts).
  destruct (Hparts "0xA" small_gain_trades st) as (Hrealized & Hrest).
  - reflexivity.
  - reflexivity.
  - discriminate.
  - exact Hloop.
  - destruct (Hrest small_gain_live acc) as (Hunrealized & _).
    + reflexivity.
    + exact Hlive.
    + exists r, st, acc. split; [reflexivity|]. split; [reflexivity|].
      split; [exact Hlive|]. split; [exact Htotal|].
      split; [exact Hrealized | exact Hunrealized].
Defined.



(** ** Counterexamples *)

(** A BUY whose size is null is read as a buy of 0 shares: on a new key it
    leaves an entry with zero shares in the map the function returns. *)
Lemma zero_size_buy_keeps_zero_share_entry :
  exists st p,
    for_each loop_body initial_ledger (null_size_buy :: nil) = Ok st /\
    fetch_user_trades_with_prices (Body (JArr (null_size_buy :: nil)))
      = Pair {| m_total_dollar_volume := 0;
                m_avg_trade_dollars := 0;
                m_realized_pnl := 0;
                m_win_rate := 0;
                m_winning_trades := 0;
                m_losing_trades := 0;
                m_total_trades := 1 |} (positions st) /\
    positions st !! k_m1 = Some p /\
    shares p == 0 /\
    ~ all_open (positions st).
Proof.
  exists (catch (for_each loop_body initial_ledger (null_size_buy :: nil))
            (fun _ => initial_ledger)).
  exists {| shares := 0 + 0; cost_basis := 0 + 0 * (1 # 2) |}.
  assert (Hp : positions (catch (for_each loop_body initial_ledger (null_size_buy :: nil))
                            (fun _ => initial_ledger)) !! k_m1
               = Some {| shares := 0 + 0; cost_basis := 0 + 0 * (1 # 2) |})
    by (vm_compute; reflexivity).
  split; [vm_compute; reflexivity|].
  split; [vm_compute; reflexivity|].
  split; [exact Hp|].
  split; [reflexivity|].
  intros Hall. specialize (Hall _ _ Hp). vm_compute in Hall. discriminate Hall.
Qed.


(** Realized and unrealized PnL are 1/256 each.  Their sum, 1/128, rounds to
    0.01; the code rounds each to 0.00 first and reports a total of 0. *)
Lemma total_pnl_rounds_twice :
  exists st acc r,
    for_each loop_body initial_ledger small_gain_trades = Ok st /\
    for_each (live_body (positions st))
      {| position_value_dollars := 0; unrealized_pnl := 0 |} small_gain_live = Ok acc /\
    enhance_user small_gain_net (row_of "0xA") = Ok r /\
    realized_pnl st == 1 # 256 /\
    unrealized_pnl acc == 1 # 256 /\
    py_round (realized_pnl st + unrealized_pnl acc) 2 = 1 # 100 /\
    row_total_pnl r = 0 /\
    ~ row_total_pnl r == py_round (realized_pnl st + unrealized_pnl acc) 2.
Proof.
  pose (st := catch (for_each loop_body initial_ledger small_gain_trades)
                (fun _ => initial_ledger)).
  pose (acc := catch (for_each (live_body (positions st))
                        {| position_value_dollars := 0; unrealized_pnl := 0 |}
                        small_gain_live)
                 (fun _ => {| position_value_dollars := 0; unrealized_pnl := 0 |})).
  exists st, acc.
  assert (Hok : is_ok (enhance_user small_gain_net (row_of "0xA")) = true)
    by (vm_compute; reflexivity).
  destruct (enhance_user small_gain_net (row_of "0xA")) as [r|e] eqn:Hr;
    [|discriminate Hok].
  assert (Htotal : (r' ← enhance_user small_gain_net (row_of "0xA");
                    mret (row_total_pnl r')) = Ok 0) by (vm_compute; reflexivity).
  rewrite Hr in Htotal. injection Htotal as Htotal.
  exists r.
  split; [vm_compute; reflexivity|].
  split; [vm_compute; reflexivity|].
  split; [reflexivity|].
  split; [vm_compute; reflexivity|].
  split; [vm_compute; reflexivity|].
  split; [vm_compute; reflexivity|].
  split; [exact Htotal|].
  rewrite Htotal. vm_compute. discriminate.
Qed.

(** ** The failing input of the early return *)

(** C4.  A failed request is absorbed: the wallet gets the all-zero metrics
    and an empty position map.  An empty trade list is not: the early return
    hands back the metrics dict alone, unpacking it into two names raises
    [ValueError] in [enhance_user], outside any [try], and the batch loop
    stops at that wallet. *)
Theorem empty_trade_list_raises_in_enhance_user :
  fetch_user_trades_with_prices (FetchFailed HTTPError) = Pair zero_metrics ∅ /\
  fetch_user_trades_with_prices (Body (JArr nil)) = BareDict zero_metrics /\
  fetch_user_trades_with_prices (Body (JObj nil)) = BareDict zero_metrics /\
  is_ok (enhance_user batch_net (row_of "0xA")) = true /\
  enhance_user batch_net (row_of "0xB") = Raise ValueError /\
  main batch_net (row_of "0xA" :: row_of "0xB" :: row_of "0xC" :: nil)
    = Raise ValueError.
Proof.
  split; [apply fetch_trades_failed|].
  split; [apply (fetch_trades_empty (JArr nil) (JArr nil)); reflexivity|].
  split; [apply (fetch_trades_empty (JObj nil) (JArr nil)); reflexivity|].
  assert (HA : is_ok (enhance_user batch_net (row_of "0xA")) = true)
    by (vm_compute; reflexivity).
  split; [exact HA|].
  assert (HB : enhance_user batch_net (row_of "0xB") = Raise ValueError).
  { apply (enhance_user_bare_dict batch_net (row_of "0xB") "0xB" zero_metrics);
      reflexivity. }
  split; [exact HB|].
  apply (main_stops batch_net nil (row_of "0xA" :: nil) (row_of "0xB")
           (row_of "0xC" :: nil) ValueError).
  - constructor; [assumption | constructor].
  - exact HB.
Qed.

(** ** Witnesses of the further properties *)

Lemma trade_leaves_other_keys_witness :
  exists st',
    apply_trade st_held (mk_trade "BUY" 4 (1 # 2) "m2") = Ok st' /\
    positions st' !! k_m1 = positions st_held !! k_m1.
Proof.
  assert (Hok : is_ok (apply_trade st_held (mk_trade "BUY" 4 (1 # 2) "m2")) = true)
    by (vm_compute; reflexivity).
  destruct (apply_trade st_held (mk_trade "BUY" 4 (1 # 2) "m2")) as [st'|e] eqn:Hstep;
    [|discriminate Hok].
  exists st'. split; [reflexivity|].
  apply (trade_leaves_other_keys st_held st' (mk_trade "BUY" 4 (1 # 2) "m2") k_m1).
  - exact Hstep.
  - vm_compute. discriminate.
Defined.

Lemma completed_run_counts_every_record_witness :
  exists st ts,
    for_each loop_body initial_ledger small_gain_trades = Ok st /\
    normalize_all small_gain_trades = Ok ts /\
    trade_count st = 3%Z /\
    total_dollar_volume st == dollar_amounts ts.
Proof.
  assert (Hok : is_ok (for_each loop_body initial_ledger small_gain_trades) = true)
    by (vm_compute; reflexivity).
  destruct (for_each loop_body initial_ledger small_gain_trades) as [st|e] eqn:Hrun;
    [|discriminate Hok].
  destruct (completed_run_counts_every_record small_gain_trades st Hrun)
    as (ts & Hn & Hc & Hv & _).
  exists st, ts. split; [reflexivity|]. split; [exact Hn|].
  split; [exact Hc | exact Hv].
Defined.

Lemma win_rate_between_0_and_100_witness :
  exists st wr,
    for_each loop_body initial_ledger small_gain_trades = Ok st /\
    win_rate st = Ok wr /\
    0 <= wr /\ wr <= 100 /\
    (winning_trades st + losing_trades st <= trade_count st)%Z.
Proof.
  assert (Hok : is_ok (for_each loop_body initial_ledger small_gain_trades) = true)
    by (vm_compute; reflexivity).
  destruct (for_each loop_body initial_ledger small_gain_trades) as [st|e] eqn:Hrun;
    [|discriminate Hok].
  destruct (win_rate_between_0_and_100 small_gain_trades st Hrun)
    as (ts & wr & _ & _ & _ & Hs & Hc & Hwr & Hlo & Hhi).
  exists st, wr. split; [reflexivity|]. split; [exact Hwr|].
  split; [exact Hlo|]. split; [exact Hhi|]. lia.
Defined.

Lemma sell_classified_by_price_witness :
  exists st',
    apply_trade st_held (mk_trade "SELL" 5 3 "m1") = Ok st' /\
    winning_trades st' = 1%Z /\
    losing_trades st' = 0%Z.
Proof.
  destruct (sell_classified_by_price st_held (mk_trade "SELL" 5 3 "m1") k_m1
              {| shares := 20; cost_basis := 30 |})
    as (st' & Hstep & Hwin & _).
  - reflexivity.
  - reflexivity.
  - vm_compute. reflexivity.
  - reflexivity.
  - reflexivity.
  - exists st'. split; [exact Hstep|]. apply Hwin. vm_compute. reflexivity.
Defined.



Lemma position_value_is_rounded_sum_witness :
  pm_position_value_dollars
    (fetch_user_positions_dollars (Body (JArr small_gain_live)) ∅)
  = py_round (sum_Q (map live_value small_gain_live)) 2.
Proof.
  apply (position_value_is_rounded_sum small_gain_live ∅).
  repeat constructor.
Defined.


Lemma failed_trade_fetch_gives_zero_pnl_witness :
  exists r,
    enhance_user trades_down_net (row_of "0xA") = Ok r /\
    row_realized_pnl r = 0 /\
    row_unrealized_pnl r = 0 /\
    row_total_pnl r = 0 /\
    row_position_value_dollars r = 1 # 2.
Proof.
  destruct (failed_trade_fetch_gives_zero_pnl trades_down_net (row_of "0xA")
              "0xA" HTTPError)
    as (r & Hr & _ & Hreal & _ & Hunreal & Htotal & Hvalue).
  - reflexivity.
  - reflexivity.
  - exists r. split; [exact Hr|]. split; [exact Hreal|]. split; [exact Hunreal|].
    split; [exact Htotal|]. rewrite Hvalue. vm_compute. reflexivity.
Defined.

Lemma response_shapes_witness :
  fetch_user_trades_with_prices
    (Body (JObj (("data", JArr small_gain_trades) :: nil)))
  = fetch_user_trades_with_prices (Body (JArr small_gain_trades)) /\
  fetch_user_trades_with_prices (Body (JObj (("error", JStr "x") :: nil)))
  = fetch_user_trades_with_prices (Body (JArr nil)) /\
  fetch_user_trades_with_prices (Body JNull) = Pair zero_metrics ∅.
Proof.
  split; [|split].
  - apply (proj1 (response_shapes (("data", JArr small_gain_trades) :: nil) ∅)).
    reflexivity.
  - apply (proj1 (proj2 (response_shapes (("error", JStr "x") :: nil) ∅))).
    reflexivity.
  - apply (proj2 (proj2 (response_shapes nil ∅)) JNull). exact I.
Defined.

Lemma main_returns_one_row_per_user_witness :
  exists rows,
    main small_gain_net (row_of "0xA" :: row_of "0xB" :: nil) = Ok rows /\
    Forall2 (fun user r =>
               enhance_user small_gain_net user = Ok r /\ row_base r = user)
      (row_of "0xA" :: row_of "0xB" :: nil) rows.
Proof.
  assert (Hok : is_ok (main small_gain_net (row_of "0xA" :: row_of "0xB" :: nil)) = true)
    by (vm_compute; reflexivity).
  destruct (main small_gain_net (row_of "0xA" :: row_of "0xB" :: nil))
    as [rows|e] eqn:Hmain; [|discriminate Hok].
  exists rows. split; [reflexivity|].
  exact (proj1 (main_returns_one_row_per_user small_gain_net _ rows) Hmain).
Defined.


Lemma other_sides_leave_the_book_alone_witness :
  exists st st',
    run_trades initial_ledger buy_hold_sell = Ok st /\
    run_trades initial_ledger
      (mk_trade "BUY" 10 1 "m1" :: mk_trade "SELL" 4 2 "m1" :: nil) = Ok st' /\
    trade_count st = 3%Z /\
    trade_count st' = 2%Z /\
    positions st' = positions st /\
    realized_pnl st' = realized_pnl st.
Proof.
  assert (Hok : is_ok (run_trades initial_ledger buy_hold_sell) = true)
    by (vm_compute; reflexivity).
  destruct (run_trades initial_ledger buy_hold_sell) as [st|e] eqn:Hrun;
    [|discriminate Hok].
  destruct (other_sides_leave_the_book_alone buy_hold_sell st Hrun)
    as (st' & Hrun' & Hpos & Hpnl & _).
  exists st, st'. split; [reflexivity|]. split; [exact Hrun'|].
  assert (Hc : (st0 ← run_trades initial_ledger buy_hold_sell;
                mret (trade_count st0)) = Ok 3%Z) by (vm_compute; reflexivity).
  rewrite Hrun in Hc. injection Hc as Hc.
  assert (Hc' : (st0 ← run_trades initial_ledger (List.filter buy_or_sell buy_hold_sell);
                 mret (trade_count st0)) = Ok 2%Z) by (vm_compute; reflexivity).
  rewrite Hrun' in Hc'. injection Hc' as Hc'.
  split; [exact Hc|]. split; [exact Hc'|]. split; [exact Hpos | exact Hpnl].
Defined.

Lemma side_letter_case_is_ignored_witness :
  loop_body initial_ledger (JObj (buy_fields "buy"))
  = loop_body initial_ledger (JObj (buy_fields "BUY")) /\
  is_ok (loop_body initial_ledger (JObj (buy_fields "buy"))) = true.
Proof.
  split; [|vm_compute; reflexivity].
  apply (side_letter_case_is_ignored (buy_fields "buy") (buy_fields "BUY") "buy" "BUY").
  - intros k Hk. unfold buy_fields. cbn [assoc_get].
    destruct (String.eqb_spec "side" k); [congruence | reflexivity].
  - reflexivity.
  - reflexivity.
  - reflexivity.
Defined.

Lemma market_falls_back_to_marketId_witness :
  item_key (JObj market_id_only) = Ok (JStr "m1", JStr "Yes") /\
  item_key (JObj no_market_a) = item_key (JObj no_market_b) /\
  item_key (JObj no_market_a) = Ok (JStr "", JStr "Yes").
Proof.
  split; [|split].
  - apply (proj1 (proj2 (market_falls_back_to_marketId market_id_only))). exact I.
  - apply (proj2 (proj2 (market_falls_back_to_marketId no_market_a)) no_market_b);
      first [exact I | reflexivity].
  - rewrite (proj1 (proj2 (market_falls_back_to_marketId no_market_a)) I). reflexivity.
Defined.

Lemma total_pnl_within_a_cent_and_a_half_witness :
  exists r st acc,
    enhance_user small_gain_net (row_of "0xA") = Ok r /\
    for_each loop_body initial_ledger small_gain_trades = Ok st /\
    for_each (live_body (positions st)) no_valuation small_gain_live = Ok acc /\
    - (3 # 200) <= row_total_pnl r - (realized_pnl st + unrealized_pnl acc) /\
    row_total_pnl r - (realized_pnl st + unrealized_pnl acc) <= 3 # 200.
Proof.
  pose (st := catch (for_each loop_body initial_ledger small_gain_trades)
                (fun _ => initial_ledger)).
  pose (acc := catch (for_each (live_body (positions st)) no_valuation small_gain_live)
                 (fun _ => no_valuation)).
  assert (Hok : is_ok (enhance_user small_gain_net (row_of "0xA")) = true)
    by (vm_compute; reflexivity).
  destruct (enhance_user small_gain_net (row_of "0xA")) as [r|e] eqn:Hr;
    [|discriminate Hok].
  assert (Hst : for_each loop_body initial_ledger small_gain_trades = Ok st)
    by (vm_compute; reflexivity).
  assert (Hacc : for_each (live_body (positions st)) no_valuation small_gain_live = Ok acc)
    by (vm_compute; reflexivity).
  destruct (total_pnl_within_a_cent_and_a_half small_gain_net (row_of "0xA") r
              "0xA" small_gain_trades small_gain_live st acc)
    as (_ & _ & Hlo & Hhi).
  - exact Hr.
  - reflexivity.
  - reflexivity.
  - discriminate.
  - exact Hst.
  - reflexivity.
  - exact Hacc.
  - exists r, st, acc. split; [reflexivity|]. split; [exact Hst|].
    split; [exact Hacc|]. split; [exact Hlo | exact Hhi].
Defined.

Lemma rebuy_after_close_starts_fresh_witness :
  exists st',
    run_trades st_held (mk_trade "SELL" 20 1 "m1" :: mk_trade "BUY" 3 2 "m1" :: nil)
    = Ok st' /\
    positions st' !! k_m1 = Some {| shares := 0 + 3; cost_basis := 0 + 3 * 2 |}.
Proof.
  destruct (rebuy_after_close_starts_fresh st_held (mk_trade "SELL" 20 1 "m1")
              (mk_trade "BUY" 3 2 "m1") k_m1 {| shares := 20; cost_basis := 30 |})
    as (st' & Hrun & Hfresh & _).
  - reflexivity.
  - reflexivity.
  - reflexivity.
  - reflexivity.
  - vm_compute. reflexivity.
  - reflexivity.
  - discriminate.
  - exists st'. split; [exact Hrun | exact Hfresh].
Defined.

Lemma unrealized_is_value_minus_cost_basis_witness :
  exists acc',
    live_body {[ k_m2 := {| shares := 4; cost_basis := 2 |} ]} no_valuation
      (live_item (JNum 4) (JNum (3 # 4)) "m2") = Ok acc' /\
    unrealized_pnl acc' == 1.
Proof.
  destruct (unrealized_is_value_minus_cost_basis
              {[ k_m2 := {| shares := 4; cost_basis := 2 |} ]} no_valuation
              (live_item (JNum 4) (JNum (3 # 4)) "m2") 4 (3 # 4) k_m2
              {| shares := 4; cost_basis := 2 |})
    as (acc' & Hstep & Hu).
  - reflexivity.
  - reflexivity.
  - reflexivity.
  - reflexivity.
  - reflexivity.
  - reflexivity.
  - exists acc'. split; [exact Hstep|]. rewrite Hu. reflexivity.
Defined.
